(** * sas_sd_snic_alias: udev alias of a SAS block device

    A shallow embedding of [sasutils/cli/sas_sd_snic_alias.py].  The
    program reads the kernel's sysfs tree through the sasutils classes
    ([sysfs], [SASBlockDevice], [EnclosureDevice]) and asks the enclosure
    for its nickname ([ses_get_snic_nickname]); those live in other modules
    of the package, so what they return is a parameter of the model: a
    record of the values (or exceptions) each read yields.  The code of the
    command itself, its exceptions, its output and the Python built-ins it
    calls ([str.rstrip], [int], [str.format], [or], [dict]) are written
    out, the built-ins as CPython 3.11 has them.  A string stands for the
    Python [str] with the same code points, each character being a code
    point below 256.  The output is what the statements of the command
    write; what a library call may write by itself is not recorded. *)

From Stdlib Require Import ZArith String Ascii List Bool Lia.
From Stdlib Require Import Numbers.DecimalString Numbers.DecimalPos Numbers.DecimalN.
From stdpp Require Import base option list gmap strings.

Open Scope string_scope.
Open Scope Z_scope.
Open Scope list_scope.

(** ** Python values, exceptions and results *)

(** A value read from a sysfs attribute file: a string, or Python's
    [None]. *)
Abbreviation attr := (option string) (only parsing).

(** The exceptions that matter to the command.  [KeyError] carries its
    argument (the missing key for a [dict] lookup); [OtherError] stands
    for any other subclass of [Exception]
    ([IOError], [AttributeError], ...), given by its class name. *)
Inductive exn : Type :=
| KeyError (key : attr)
| ValueError (msg : string)
| TypeError (msg : string)
| OtherError (cls msg : string).

Inductive result (A : Type) : Type :=
| Ok (a : A)
| Raise (e : exn).
Arguments Ok {A} a.
Arguments Raise {A} e.

Definition is_KeyError (e : exn) : bool :=
  match e with KeyError _ => true | _ => false end.

(** What the statements of the command and the interpreter write, in
    order (what a library call may write by itself is not recorded).
    [print(s)] goes to standard output;
    the other forms go to standard error: [print(s, file=sys.stderr)], the
    record [logging.warning] hands to the root logger (whose default
    handler writes to standard error), the line
    [print("Not found: {0}".format(err), file=sys.stderr)] of [main], and
    the interpreter's traceback for an exception nobody caught. *)
Inductive output : Type :=
| Print (s : string)
| PrintErr (s : string)
| LogWarning (msg : string)
| NotFound (err : exn)
| Traceback (e : exn).

Definition is_stdout (o : output) : bool :=
  match o with Print _ => true | _ => false end.

Definition stdout (out : list output) : list output := filter (fun o => is_stdout o = true) out.
Definition stderr (out : list output) : list output := filter (fun o => is_stdout o = false) out.

(** ** The monad of the command: exceptions and output *)

Definition M (A : Type) : Type := (result A * list output)%type.

Definition ret {A} (a : A) : M A := (Ok a, []).

Definition bind {A B} (m : M A) (f : A -> M B) : M B :=
  match m with
  | (Ok a, out) => let (r, out') := f a in (r, out ++ out')
  | (Raise e, out) => (Raise e, out)
  end.

(** A read of the outside world: its result, no output. *)
Definition read {A} (r : result A) : M A := (r, []).

Definition raise {A} (e : exn) : M A := (Raise e, []).

Definition emit (o : output) : M unit := (Ok tt, [o]).

(** [try: body except KeyError as err: handler err] *)
Definition try_except_KeyError {A} (body : M A) (handler : exn -> M A) : M A :=
  match body with
  | (Raise e, out) =>
      if is_KeyError e then let (r, out') := handler e in (r, out ++ out')
      else (Raise e, out)
  | ok => ok
  end.

Declare Scope py_scope.
Delimit Scope py_scope with py.
Notation "'let*' x ':=' m 'in' k" := (bind m (fun x => k))
  (at level 10, x name, m at level 100, k at level 200) : py_scope.
Notation "'do' m 'then' k" := (bind m (fun _ => k))
  (at level 10, m at level 100, k at level 200) : py_scope.

(** ** Built-ins on strings *)

Module Py.

(** [c in chars] *)
Fixpoint contains (chars : string) (c : ascii) : bool :=
  match chars with
  | EmptyString => false
  | String d chars' => Ascii.eqb c d || contains chars' c
  end.

(** [s.rstrip(chars)]: [s] without its trailing characters that occur in
    [chars]. *)
Fixpoint rstrip (chars s : string) : string :=
  match s with
  | EmptyString => EmptyString
  | String c s' =>
      match rstrip chars s' with
      | EmptyString => if contains chars c then EmptyString else String c EmptyString
      | r => String c r
      end
  end.

(** [s.lstrip(chars)] *)
Fixpoint lstrip (chars s : string) : string :=
  match s with
  | EmptyString => EmptyString
  | String c s' => if contains chars c then lstrip chars s' else s
  end.

(** The characters [int] skips around a literal: tab, line feed, vertical
    tab, form feed, carriage return and space, and the two other spaces
    below 256, U+0085 and U+00A0, which [int] first turns into a space.
    The separators 0x1c-0x1f are not among them. *)
Definition whitespace : string :=
  String "009" (String "010" (String "011" (String "012" (String "013"
  (String " " (String "133" (String "160" EmptyString))))))).

Definition digits : string := "0123456789".

Definition is_digit (c : ascii) : bool := contains digits c.

Definition digit_value (c : ascii) : Z := Z.of_nat (nat_of_ascii c) - 48.

(** The digits of an integer literal, most significant first; single
    underscores may separate digits.  [acc] is the value read so far and
    [after_digit] says whether the previous character was a digit. *)
Fixpoint digits_value (acc : Z) (after_digit : bool) (s : string) : option Z :=
  match s with
  | EmptyString => if after_digit then Some acc else None
  | String c s' =>
      if is_digit c then digits_value (10 * acc + digit_value c) true s'
      else if Ascii.eqb c "_" && after_digit then digits_value acc false s'
      else None
  end.

(** The scan of [int] over the digits and underscores at the head of [s]:
    the number of digits met, or [None] when two underscores follow each
    other or the run ends on one. *)
Fixpoint scan_run (after_underscore : bool) (s : string) : option nat :=
  match s with
  | EmptyString => if after_underscore then None else Some 0%nat
  | String c s' =>
      if is_digit c then S <$> scan_run false s'
      else if Ascii.eqb c "_" then
        if after_underscore then None else scan_run true s'
      else if after_underscore then None else Some 0%nat
  end.

(** [sys.int_info.default_max_str_digits] *)
Definition max_str_digits : nat := 4300.

(** What [int] makes of a text: its value, an invalid literal, or a literal
    of more digits than [max_str_digits]. *)
Inductive literal : Type :=
| Value (z : Z)
| Invalid
| TooLong (ndigits : nat).

Definition starts_with (c : ascii) (s : string) : bool :=
  match s with
  | String d _ => Ascii.eqb d c
  | EmptyString => false
  end.

Definition tail (s : string) : string :=
  match s with
  | String _ s' => s'
  | EmptyString => EmptyString
  end.

(** [int] on a text, in the order of the interpreter: leading white
    space, an optional sign, no underscore first, the scan of the digits,
    the limit on their number, then nothing but white space after them. *)
Definition int_literal (s : string) : literal :=
  let t := lstrip whitespace s in
  let negative := starts_with "-" t in
  let ds := if negative || starts_with "+" t then tail t else t in
  if starts_with "_" ds then Invalid
  else
    match scan_run false ds with
    | None => Invalid
    | Some ndigits =>
        if (max_str_digits <? ndigits)%nat then TooLong ndigits
        else
          match digits_value 0 false (rstrip whitespace ds) with
          | Some z => Value (if negative then - z else z)
          | None => Invalid
          end
    end.

(** The value [int] gives to a text, if any. *)
Definition parse_int (s : string) : option Z :=
  match int_literal s with
  | Value z => Some z
  | _ => None
  end.

Definition hex_digit (n : nat) : ascii :=
  match String.get n "0123456789abcdef" with
  | Some c => c
  | None => "0"%char
  end.

(** The double quote. *)
Definition dquote : ascii := "034"%char.

(** [c.isprintable()] for a code point below 256. *)
Definition printable (c : ascii) : bool :=
  let n := nat_of_ascii c in
  (32 <=? n)%nat && negb (n =? 127)%nat
  && negb ((128 <=? n)%nat && (n <=? 160)%nat) && negb (n =? 173)%nat.

(** One character of [repr(s)], [quote] being the quote chosen. *)
Definition repr_char (quote c : ascii) : string :=
  if Ascii.eqb c quote || Ascii.eqb c "\" then String "\" (String c EmptyString)
  else if Ascii.eqb c "009" then "\t"
  else if Ascii.eqb c "010" then "\n"
  else if Ascii.eqb c "013" then "\r"
  else if printable c then String c EmptyString
  else "\x" +:+ String (hex_digit (nat_of_ascii c / 16))
                  (String (hex_digit (nat_of_ascii c mod 16)) EmptyString).

Fixpoint repr_chars (quote : ascii) (s : string) : string :=
  match s with
  | EmptyString => EmptyString
  | String c s' => repr_char quote c +:+ repr_chars quote s'
  end.

(** [repr(s)]: in single quotes, or in double quotes when [s] has a single
    quote and no double quote. *)
Definition repr (s : string) : string :=
  let quote := if contains s "'" && negb (contains s dquote) then dquote else "'"%char in
  String quote (repr_chars quote s +:+ String quote EmptyString).

(** [str(n)] for a natural number. *)
Definition str_nat (n : N) : string := NilZero.string_of_uint (N.to_uint n).

(** [int(x)] for [x] a string or [None]; the message of an invalid
    literal shows at most 200 characters of [repr(x)]. *)
Definition int (x : attr) : result Z :=
  match x with
  | None => Raise (TypeError "int() argument must be a string, a bytes-like object or a real number, not 'NoneType'")
  | Some s =>
      match int_literal s with
      | Value z => Ok z
      | Invalid =>
          Raise (ValueError ("invalid literal for int() with base 10: "
                             +:+ String.substring 0 200 (repr s)))
      | TooLong ndigits =>
          Raise (ValueError ("Exceeds the limit (4300 digits) for integer string conversion: value has "
                             +:+ str_nat (N.of_nat ndigits)
                             +:+ " digits; use sys.set_int_max_str_digits() to increase the limit"))
      end
  end.

(** [s.rjust(width, '0')] on a string of digits. *)
Definition zfill (width : nat) (s : string) : string :=
  String.concat "" (repeat "0" (width - String.length s)) +:+ s.

(** [format(z, '02d')]: decimal, zero-filled to two characters, the sign
    (if any) first and counted in the width.  The command formats what
    [int] returned, an integer of at most [max_str_digits] digits, for which
    the conversion to decimal does not fail. *)
Definition format_02d (z : Z) : string :=
  if z <? 0 then "-" +:+ zfill 1 (str_nat (Z.to_N (- z)))
  else zfill 2 (str_nat (Z.to_N z)).

(** [x or y] on an optional string: [x] when it is truthy (neither [None]
    nor empty), else [y]. *)
Definition or (x : option string) (y : string) : string :=
  match x with
  | Some (String c s) => String c s
  | _ => y
  end.

End Py.

(** ** The sysfs tree as the sasutils classes present it

    Every field is what one read of the tree yields: a value, or the
    exception the library raises.  The tree is read-only, so a read gives
    the same result each time it is made. *)

(** [sasutils.scsi.EnclosureDevice]: [encldev.attrs.sas_address] and
    [encldev.scsi_generic.sg_name]. *)
Record EnclosureDevice : Type := {
  sas_address : result attr;
  scsi_generic_sg_name : result string
}.

(** The SAS device of an end device: [sasdev.attrs.enclosure_identifier]
    and [sasdev.attrs.bay_identifier]. *)
Record SASDevice : Type := {
  enclosure_identifier : result attr;
  bay_identifier : result attr
}.

(** The array device of a block device, read through
    [array_device.enclosure.scsi_generic.sg_name]. *)
Record ArrayDevice : Type := {
  enclosure_scsi_generic_sg_name : result string
}.

(** [sasutils.sas.SASBlockDevice]: [name], [sysfsnode.path],
    [end_device.sas_device] and [array_device] ([None] when the
    'enclosure_device' link is absent). *)
Record SASBlockDevice : Type := {
  name : string;
  sysfsnode_path : string;
  end_device_sas_device : result SASDevice;
  array_device : result (option ArrayDevice)
}.

(** The world of one run.
    - [class_enclosure]: the nodes [sysfs.node('class').node('enclosure')]
      iterates over, each given by [EnclosureDevice(encl.node('device'))];
    - [block n]: [SASBlockDevice(sysfs.node('block').node(n).node('device'))];
    - [ses_get_snic_nickname sg]: the nickname query of [sasutils.ses]. *)
Record World : Type := {
  class_enclosure : result (list (result EnclosureDevice));
  block : string -> result SASBlockDevice;
  ses_get_snic_nickname : string -> result (option string)
}.

(** ** The command *)

Local Open Scope py_scope.

(** [d[key]] *)
Definition dict_getitem {V} (d : gmap (option string) V) (key : attr) : M V :=
  match d !! key with
  | Some v => ret v
  | None => raise (KeyError key)
  end.

(** [ALIAS_FORMAT.format(nickname=nickname, bay_identifier=bay)] with
    [ALIAS_FORMAT = '{nickname}-bay{bay_identifier:02d}']. *)
Definition ALIAS_FORMAT (nickname : string) (bay_identifier : Z) : string :=
  nickname +:+ "-bay" +:+ Py.format_02d bay_identifier.

(** The body of the preload loop, over the nodes still to visit:
    [encldev = EnclosureDevice(encl.node('device'))] then
    [enclosures[encldev.attrs.sas_address] = encldev]. *)
Fixpoint preload_loop (nodes : list (result EnclosureDevice))
    (enclosures : gmap (option string) EnclosureDevice)
    : M (gmap (option string) EnclosureDevice) :=
  match nodes with
  | [] => ret enclosures
  | encl :: nodes' =>
      let* encldev := read encl in
      let* key := read (sas_address encldev) in
      preload_loop nodes' (<[key := encldev]> enclosures)
  end.

(** Lines 49-52: preload the enclosure dict (sas_address -> EnclosureDevice). *)
Definition preload_enclosures (w : World) : M (gmap (option string) EnclosureDevice) :=
  let* nodes := read (class_enclosure w) in
  preload_loop nodes ∅.

(** Lines 59-72: the SES sg name, through the array device when the block
    device has one, else through the preloaded dict. *)
Definition lookup_ses_sg (enclosures : gmap (option string) EnclosureDevice)
    (blkdev : SASBlockDevice) (sasdev : SASDevice) : M string :=
  let* array := read (array_device blkdev) in
  match array with
  | Some array => read (enclosure_scsi_generic_sg_name array)
  | None =>
      try_except_KeyError
        (let* key := read (enclosure_identifier sasdev) in
         let* encl := dict_getitem enclosures key in
         read (scsi_generic_sg_name encl))
        (fun err =>
           do emit (LogWarning (name blkdev +:+ " not an array device ("
                                  +:+ sysfsnode_path blkdev +:+ ")")) then
           raise err)
  end.

(** Lines 78-80 after the nickname query:
    [snic = nickname or '%s_no_snic' % name] and the format. *)
Definition format_alias (nickname : option string) (bay : Z) (name : string) : string :=
  let snic := Py.or nickname (name +:+ "_no_snic") in
  ALIAS_FORMAT snic bay.

(** [r >>= f] on results of reads. *)
Definition and_then {A B} (r : result A) (f : A -> result B) : result B :=
  match r with
  | Ok a => f a
  | Raise e => Raise e
  end.

(** Lines 56-80: from the block device name to the alias, the dict being
    preloaded. *)
Definition alias_from (w : World) (enclosures : gmap (option string) EnclosureDevice)
    (blkdev : string) : M string :=
  let* blkdev := read (block w (Py.rstrip "0123456789" blkdev)) in
  let* sasdev := read (end_device_sas_device blkdev) in
  let* ses_sg := lookup_ses_sg enclosures blkdev sasdev in
  let* bay := read (and_then (bay_identifier sasdev) Py.int) in
  let* nickname := read (ses_get_snic_nickname w ses_sg) in
  ret (format_alias nickname bay (name blkdev)).

(** [sas_sd_snic_alias(blkdev)] *)
Definition sas_sd_snic_alias (w : World) (blkdev : string) : M string :=
  let* enclosures := preload_enclosures w in
  alias_from w enclosures blkdev.

(** A finished process: what it wrote and its exit status. *)
Record process : Type := {
  written : list output;
  exit_status : Z
}.

(** [main()] run as the program, [argv] being [sys.argv].  [sys.exit(1)]
    ends the process with status 1; an exception [main] does not catch
    ends it with a traceback on standard error and status 1; returning ends
    it with status 0. *)
Definition main (w : World) (argv : list string) : process :=
  match argv with
  | [_; blkdev] =>
      match sas_sd_snic_alias w blkdev with
      | (Ok result, out) =>
          {| written := out ++ (if String.eqb result "" then [] else [Print result]);
             exit_status := 0 |}
      | (Raise (KeyError key), out) =>
          {| written := out ++ [NotFound (KeyError key)]; exit_status := 1 |}
      | (Raise e, out) =>
          {| written := out ++ [Traceback e]; exit_status := 1 |}
      end
  | argv0 :: _ =>
      {| written := [PrintErr ("Usage: " +:+ argv0 +:+ " <blkdev>")]; exit_status := 1 |}
  | [] =>
      {| written := [Traceback (OtherError "IndexError" "list index out of range")];
         exit_status := 1 |}
  end.

(** ** Vocabulary of the specification *)

(** Every character of [s] occurs in [chars]. *)
Fixpoint all_in (chars s : string) : bool :=
  match s with
  | EmptyString => true
  | String c s' => Py.contains chars c && all_in chars s'
  end.


(** The whole-disk name of a block device name (step 1 of the resolver). *)
Definition whole_disk_name (blkdev : string) : string := Py.rstrip "0123456789" blkdev.

(** A bay number below one hundred on two digits, tens first. *)
Definition two_digits (bay : Z) : string :=
  String (ascii_of_nat (Z.to_nat (48 + bay / 10)))
    (String (ascii_of_nat (Z.to_nat (48 + bay mod 10))) EmptyString).

(** The SAS address under which the preload files a node, or the exception
    that reading the node raises. *)
Definition node_key (encl : result EnclosureDevice) : result attr :=
  and_then encl sas_address.

(** The warning logged for a block device that is behind no enclosure. *)
Definition not_an_array_device (blkdev : SASBlockDevice) : output :=
  LogWarning (name blkdev +:+ " not an array device (" +:+ sysfsnode_path blkdev +:+ ")").

(** The bay identifier of a SAS device cannot be used: the attribute cannot
    be read or has no value (missing), or its text is not an integer
    literal (non-numeric). *)
Definition bay_unusable (sasdev : SASDevice) : Prop :=
  match bay_identifier sasdev with
  | Raise _ => True
  | Ok None => True
  | Ok (Some s) => Py.parse_int s = None
  end.

(** ** Sample trees *)

Module Sample.

Definition enclosure (addr sg : string) : EnclosureDevice :=
  {| sas_address := Ok (Some addr); scsi_generic_sg_name := Ok sg |}.

Definition disk (n : string) (array : option string) (encl_id bay : string) : SASBlockDevice :=
  {| name := n;
     sysfsnode_path := "/sys/block/" +:+ n +:+ "/device";
     end_device_sas_device :=
       Ok {| enclosure_identifier := Ok (Some encl_id); bay_identifier := Ok (Some bay) |};
     array_device :=
       Ok ((fun sg => {| enclosure_scsi_generic_sg_name := Ok sg |}) <$> array) |}.

Fixpoint find_disk (disks : list SASBlockDevice) (n : string) : result SASBlockDevice :=
  match disks with
  | [] => Raise (KeyError (Some ("/sys/block/" +:+ n)))
  | d :: disks' => if String.eqb (name d) n then Ok d else find_disk disks' n
  end.

Fixpoint find_nickname (nicknames : list (string * option string)) (sg : string) : option string :=
  match nicknames with
  | [] => None
  | (sg', nick) :: nicknames' => if String.eqb sg' sg then nick else find_nickname nicknames' sg
  end.

Definition world (nodes : list (result EnclosureDevice)) (disks : list SASBlockDevice)
    (nicknames : list (string * option string)) : World :=
  {| class_enclosure := Ok nodes;
     block := find_disk disks;
     ses_get_snic_nickname := fun sg => Ok (find_nickname nicknames sg) |}.

Definition jbod1 : EnclosureDevice := enclosure "0x5000ccab0405db00" "sg3".
Definition jbod2 : EnclosureDevice := enclosure "0x5000ccab04061200" "sg7".
(** A second node reporting the address of [jbod1]. *)
Definition jbod1' : EnclosureDevice := enclosure "0x5000ccab0405db00" "sg9".
Definition unreadable : result EnclosureDevice := Raise (OtherError "IOError" "Input/output error").

Definition nicknames : list (string * option string) :=
  [("sg3", Some "rack7-encl2"); ("sg7", Some ""); ("sg9", None)].

(** [sdc]: enclosure link present; [sdb]: link absent, behind [jbod1];
    [sdd]: link absent, behind [jbod2] (empty nickname); [sdz]: link
    absent, enclosure unknown; [sde]: bay identifier not a number. *)
Definition disks : list SASBlockDevice :=
  [ disk "sdc" (Some "sg3") "0x5000ccab0405db00" "12";
    disk "sdb" None "0x5000ccab0405db00" "3";
    disk "sdd" None "0x5000ccab04061200" "7";
    disk "sdz" None "0x5000c50000000000" "0";
    disk "sde" None "0x5000ccab0405db00" "n/a" ].

Definition healthy : World := world [Ok jbod1; Ok jbod2] disks nicknames.
Definition broken : World := world [unreadable; Ok jbod1; Ok jbod2] disks nicknames.
Definition duplicated : World := world [Ok jbod1; Ok jbod2; Ok jbod1'] disks nicknames.

End Sample.

(** * Properties *)

Example rstrip_sdb1 : Py.rstrip Py.digits "sdb1" = "sdb".
Proof. reflexivity. Qed.
Example int_12 : Py.int (Some (" 12" +:+ String "010" "")) = Ok 12.
Proof. reflexivity. Qed.
Example int_1_0 : Py.int (Some "-1_0") = Ok (-10).
Proof. reflexivity. Qed.
Example int_separator :
  Py.int (Some ("12" +:+ String "028" ""))
  = Raise (ValueError "invalid literal for int() with base 10: '12\x1c'").
Proof. reflexivity. Qed.
Example int_no_break_space : Py.int (Some (String "160" "12" +:+ String "133" "")) = Ok 12.
Proof. reflexivity. Qed.
Example int_quote :
  Py.int (Some "it's")
  = Raise (ValueError ("invalid literal for int() with base 10: "
                       +:+ String Py.dquote ("it's" +:+ String Py.dquote ""))).
Proof. reflexivity. Qed.
Example int_bad : Py.parse_int "1__0" = None /\ Py.parse_int "_1" = None /\ Py.parse_int "1_" = None /\ Py.parse_int "" = None /\ Py.parse_int "+" = None /\ Py.parse_int "+ 1" = None.
Proof. repeat split; reflexivity. Qed.
Example fmt_ex : Py.format_02d 3 = "03" /\ Py.format_02d 12 = "12" /\ Py.format_02d 123 = "123" /\ Py.format_02d (-5) = "-5" /\ Py.format_02d 0 = "00" /\ Py.format_02d (-12) = "-12".
Proof. repeat split; reflexivity. Qed.
Example scenario_sdc :
  main Sample.healthy ["sas_sd_snic_alias"; "sdc"]
  = {| written := [Print "rack7-encl2-bay12"]; exit_status := 0 |}.
Proof. reflexivity. Qed.
Example scenario_sdb1 :
  main Sample.healthy ["sas_sd_snic_alias"; "sdb1"]
  = {| written := [Print "rack7-encl2-bay03"]; exit_status := 0 |}.
Proof. reflexivity. Qed.
Example scenario_sdz :
  main Sample.healthy ["sas_sd_snic_alias"; "sdz"]
  = {| written := [LogWarning "sdz not an array device (/sys/block/sdz/device)";
                   NotFound (KeyError (Some "0x5000c50000000000"))];
       exit_status := 1 |}.
Proof. reflexivity. Qed.
Example scenario_usage :
  main Sample.healthy ["sas_sd_snic_alias"]
  = {| written := [PrintErr "Usage: sas_sd_snic_alias <blkdev>"]; exit_status := 1 |}.
Proof. reflexivity. Qed.

(** ** [str.rstrip] and the whole-disk name *)

Lemma append_nil_l (s : string) : "" +:+ s = s.
Proof. reflexivity. Qed.

Lemma append_cons (c : ascii) (s t : string) : String c s +:+ t = String c (s +:+ t).
Proof. reflexivity. Qed.

Section Rstrip.
Variable chars : string.

Lemma rstrip_snoc (s : string) (c : ascii) :
  Py.rstrip chars (s +:+ String c "")
  = if Py.contains chars c then Py.rstrip chars s else s +:+ String c "".
Proof.
  induction s as [|d s IH]; simpl.
  - destruct (Py.contains chars c); reflexivity.
  - rewrite IH. destruct (Py.contains chars c) eqn:Hc.
    + reflexivity.
    + destruct s; reflexivity.
Qed.

Lemma rstrip_suffix (s : string) :
  exists suffix, s = Py.rstrip chars s +:+ suffix /\ all_in chars suffix = true.
Proof.
  induction s as [|c s [suffix [Hs Hall]]]; simpl.
  - exists "". split; reflexivity.
  - destruct (Py.rstrip chars s) as [|d r] eqn:Hr.
    + rewrite append_nil_l in Hs. subst suffix.
      destruct (Py.contains chars c) eqn:Hc.
      * exists (String c s). simpl. rewrite Hc, Hall. split; reflexivity.
      * exists s. split; [reflexivity | assumption].
    + exists suffix. split; [|assumption].
      rewrite append_cons. f_equal. exact Hs.
Qed.
End Rstrip.



(** ** The alias format *)

Lemma append_assoc (s t u : string) : (s +:+ t) +:+ u = s +:+ t +:+ u.
Proof.
  induction s as [|c s IH]; [reflexivity|].
  rewrite !append_cons. f_equal. exact IH.
Qed.

(** Below one hundred, [02d] writes exactly two digits. *)
Lemma format_02d_two_digits (bay : Z) :
  0 <= bay <= 99 -> Py.format_02d bay = two_digits bay.
Proof.
  intros Hbay.
  assert (Hall : forallb (fun n => String.eqb (Py.format_02d (Z.of_nat n))
                                     (two_digits (Z.of_nat n))) (seq 0 100) = true)
    by (vm_compute; reflexivity).
  rewrite forallb_forall in Hall.
  specialize (Hall (Z.to_nat bay)).
  rewrite Z2Nat.id in Hall by lia.
  apply String.eqb_eq, Hall, in_seq. lia.
Qed.

Lemma format_alias_truthy (nickname : string) (bay : Z) (label : string) :
  nickname <> "" -> format_alias (Some nickname) bay label = ALIAS_FORMAT nickname bay.
Proof.
  intros Hne. destruct nickname as [|c s]; [congruence|]. reflexivity.
Qed.

(** C5, as stated, fails for the empty nickname: a nickname that is
    present but empty is replaced by the fallback name. *)
Lemma format_alias_empty_nickname :
  0 <= 3 <= 99
  /\ format_alias (Some "") 3 "sdx" = "sdx_no_snic-bay03"
  /\ format_alias (Some "") 3 "sdx" <> "" +:+ "-bay" +:+ two_digits 3.
Proof.
  split; [lia|]. split; [reflexivity|]. discriminate.
Qed.

(** C5 (amended): for every non-empty nickname and every bay from 0 to 99
    the alias is the nickname, then ["-bay"], then the bay on two digits. *)
Theorem format_alias_present (nickname : string) (bay : Z) (label : string) :
  nickname <> "" ->
  0 <= bay <= 99 ->
  format_alias (Some nickname) bay label = nickname +:+ "-bay" +:+ two_digits bay.
Proof.
  intros Hne Hbay.
  rewrite format_alias_truthy by assumption.
  unfold ALIAS_FORMAT. rewrite format_02d_two_digits by assumption. reflexivity.
Qed.

Lemma format_alias_present_enc1 :
  "enc1" <> "" /\ 0 <= 3 <= 99 /\ format_alias (Some "enc1") 3 "sdx" = "enc1-bay03".
Proof.
  split; [discriminate|]. split; [lia|].
  apply (format_alias_present "enc1" 3 "sdx"); [discriminate | lia].
Defined.

(** C6: without a nickname the formatter still yields an alias: it is the
    alias of the nickname ["<label>_no_snic"], that is the label, then
    ["_no_snic-bay"], then the bay in the [02d] format; label ["sdx"] and
    bay 7 give ["sdx_no_snic-bay07"]. *)
Theorem format_alias_absent (bay : Z) (label : string) :
  format_alias None bay label = ALIAS_FORMAT (label +:+ "_no_snic") bay
  /\ format_alias None bay label = format_alias (Some (label +:+ "_no_snic")) bay label
  /\ format_alias None bay label = label +:+ "_no_snic-bay" +:+ Py.format_02d bay
  /\ format_alias None 7 "sdx" = "sdx_no_snic-bay07".
Proof.
  split; [reflexivity|]. split; [|split; [|reflexivity]].
  - rewrite format_alias_truthy; [reflexivity|].
    destruct label; discriminate.
  - unfold format_alias, ALIAS_FORMAT. cbn [Py.or].
    rewrite append_assoc. reflexivity.
Qed.

(** ** Preloading the enclosure dict *)

Lemma bind_read_ok {A B} (r : result A) (a : A) (f : A -> M B) :
  r = Ok a -> bind (read r) f = f a.
Proof.
  intros ->. unfold bind, read. destruct (f a) as [r' out]. reflexivity.
Qed.

Lemma bind_read_raise {A B} (r : result A) (e : exn) (f : A -> M B) :
  r = Raise e -> bind (read r) f = (Raise e, []).
Proof. intros ->. reflexivity. Qed.

Lemma node_key_ok (encl : result EnclosureDevice) (key : attr) :
  node_key encl = Ok key -> exists encldev, encl = Ok encldev /\ sas_address encldev = Ok key.
Proof.
  destruct encl as [encldev|e]; simpl; [|discriminate]. eauto.
Qed.

Lemma node_key_raise (encl : result EnclosureDevice) (e : exn) :
  node_key encl = Raise e ->
  encl = Raise e \/ exists encldev, encl = Ok encldev /\ sas_address encldev = Raise e.
Proof.
  destruct encl as [encldev|e']; simpl; [eauto | intros [= ->]; eauto].
Qed.

(** One turn of the loop on a readable node. *)
Lemma preload_loop_cons_ok (encl : result EnclosureDevice) (encldev : EnclosureDevice)
    (key : attr) (nodes : list (result EnclosureDevice))
    (enclosures : gmap (option string) EnclosureDevice) :
  encl = Ok encldev -> sas_address encldev = Ok key ->
  preload_loop (encl :: nodes) enclosures = preload_loop nodes (<[key := encldev]> enclosures).
Proof.
  intros Hencl Hkey. cbn [preload_loop].
  rewrite (bind_read_ok _ _ _ Hencl), (bind_read_ok _ _ _ Hkey). reflexivity.
Qed.

(** One turn of the loop on an unreadable node. *)
Lemma preload_loop_cons_raise (encl : result EnclosureDevice) (e : exn)
    (nodes : list (result EnclosureDevice))
    (enclosures : gmap (option string) EnclosureDevice) :
  node_key encl = Raise e ->
  preload_loop (encl :: nodes) enclosures = (Raise e, []).
Proof.
  intros [Hencl | (encldev & Hencl & Hkey)]%node_key_raise; cbn [preload_loop].
  - apply bind_read_raise, Hencl.
  - rewrite (bind_read_ok _ _ _ Hencl). apply bind_read_raise, Hkey.
Qed.

(** The preload writes nothing. *)
Lemma preload_loop_silent (nodes : list (result EnclosureDevice))
    (enclosures : gmap (option string) EnclosureDevice) :
  (preload_loop nodes enclosures).2 = [].
Proof.
  revert enclosures. induction nodes as [|encl nodes IH]; intros enclosures; [reflexivity|].
  destruct (node_key encl) as [key|e] eqn:Hkey.
  - apply node_key_ok in Hkey as (encldev & Hencl & Hkey).
    rewrite (preload_loop_cons_ok _ _ _ _ _ Hencl Hkey). apply IH.
  - rewrite (preload_loop_cons_raise _ _ _ _ Hkey). reflexivity.
Qed.

(** The loop stops at the first unreadable node. *)
Lemma preload_loop_raise (before : list (result EnclosureDevice)) (bad : result EnclosureDevice)
    (after : list (result EnclosureDevice)) (e : exn)
    (enclosures : gmap (option string) EnclosureDevice) :
  Forall (fun encl => exists key, node_key encl = Ok key) before ->
  node_key bad = Raise e ->
  preload_loop (before ++ bad :: after) enclosures = (Raise e, []).
Proof.
  intros Hbefore Hbad. revert enclosures.
  induction Hbefore as [|encl before [key Hkey] _ IH]; intros enclosures.
  - apply preload_loop_cons_raise, Hbad.
  - apply node_key_ok in Hkey as (encldev & Hencl & Hkey).
    rewrite <- app_comm_cons, (preload_loop_cons_ok _ _ _ _ _ Hencl Hkey). apply IH.
Qed.

(** Nodes filed under other addresses leave an entry as it was. *)
Lemma preload_loop_other (nodes : list (result EnclosureDevice)) (key : attr)
    (enclosures index : gmap (option string) EnclosureDevice) (out : list output) :
  Forall (fun encl => node_key encl <> Ok key) nodes ->
  preload_loop nodes enclosures = (Ok index, out) ->
  index !! key = enclosures !! key.
Proof.
  intros Hnodes. revert enclosures.
  induction Hnodes as [|encl nodes Hne _ IH]; intros enclosures Hrun.
  - injection Hrun as <- _. reflexivity.
  - destruct (node_key encl) as [key'|e] eqn:Hkey.
    + apply node_key_ok in Hkey as Hok. destruct Hok as (encldev & Hencl & Hkey').
      rewrite (preload_loop_cons_ok _ _ _ _ _ Hencl Hkey') in Hrun.
      rewrite (IH _ Hrun). apply lookup_insert_ne. congruence.
    + rewrite (preload_loop_cons_raise _ _ _ _ Hkey) in Hrun. discriminate.
Qed.

(** The entry of an address is the last node that reports it. *)
Lemma preload_loop_last (before : list (result EnclosureDevice)) (encl : EnclosureDevice)
    (after : list (result EnclosureDevice)) (key : attr)
    (enclosures index : gmap (option string) EnclosureDevice) (out : list output) :
  sas_address encl = Ok key ->
  Forall (fun encl' => node_key encl' <> Ok key) after ->
  preload_loop (before ++ Ok encl :: after) enclosures = (Ok index, out) ->
  index !! key = Some encl.
Proof.
  intros Hkey Hafter. revert enclosures.
  induction before as [|encl' before IH]; intros enclosures Hrun.
  - rewrite app_nil_l, (preload_loop_cons_ok _ _ _ _ _ eq_refl Hkey) in Hrun.
    rewrite (preload_loop_other _ _ _ _ _ Hafter Hrun). apply lookup_insert_eq.
  - rewrite <- app_comm_cons in Hrun.
    destruct (node_key encl') as [key'|e] eqn:Hkey'.
    + apply node_key_ok in Hkey' as (encldev & Hencl & Hkey').
      rewrite (preload_loop_cons_ok _ _ _ _ _ Hencl Hkey') in Hrun. exact (IH _ Hrun).
    + rewrite (preload_loop_cons_raise _ _ _ _ Hkey') in Hrun. discriminate.
Qed.

Lemma preload_enclosures_nodes (w : World) (nodes : list (result EnclosureDevice)) :
  class_enclosure w = Ok nodes -> preload_enclosures w = preload_loop nodes ∅.
Proof.
  intros Hnodes.
  exact (bind_read_ok _ _ (fun nodes => preload_loop nodes ∅) Hnodes).
Qed.

Lemma preload_enclosures_silent (w : World) : (preload_enclosures w).2 = [].
Proof.
  destruct (class_enclosure w) as [nodes|e] eqn:Hnodes.
  - rewrite (preload_enclosures_nodes _ _ Hnodes). apply preload_loop_silent.
  - unfold preload_enclosures. rewrite (bind_read_raise _ _ _ Hnodes). reflexivity.
Qed.

(** C9: the preloaded dict has each SAS address at most once among its
    keys, and an address reported by several enclosure nodes is mapped to
    the last of them in the order of enumeration. *)
Theorem enclosures_last_seen_wins (w : World) (nodes : list (result EnclosureDevice))
    (enclosures : gmap (option string) EnclosureDevice) :
  class_enclosure w = Ok nodes ->
  (preload_enclosures w).1 = Ok enclosures ->
  NoDup (map_to_list enclosures).*1
  /\ forall before encl after key,
       nodes = before ++ Ok encl :: after ->
       sas_address encl = Ok key ->
       Forall (fun encl' => node_key encl' <> Ok key) after ->
       enclosures !! key = Some encl.
Proof.
  intros Hnodes Hrun. split; [apply NoDup_fst_map_to_list|].
  intros before encl after key -> Hkey Hafter.
  rewrite (preload_enclosures_nodes _ _ Hnodes) in Hrun.
  destruct (preload_loop _ ∅) as [r out] eqn:Hloop. simpl in Hrun. subst r.
  exact (preload_loop_last _ _ _ _ _ _ _ Hkey Hafter Hloop).
Qed.

Lemma duplicated_address_last_wins :
  exists enclosures,
    class_enclosure Sample.duplicated = Ok [Ok Sample.jbod1; Ok Sample.jbod2; Ok Sample.jbod1']
    /\ (preload_enclosures Sample.duplicated).1 = Ok enclosures
    /\ sas_address Sample.jbod1' = Ok (Some "0x5000ccab0405db00")
    /\ Forall (fun encl' => node_key encl' <> Ok (Some "0x5000ccab0405db00")) []
    /\ NoDup (map_to_list enclosures).*1
    /\ enclosures !! Some "0x5000ccab0405db00" = Some Sample.jbod1'.
Proof.
  eexists. split; [reflexivity|]. split; [reflexivity|]. split; [reflexivity|].
  split; [constructor|].
  destruct (enclosures_last_seen_wins Sample.duplicated _ _ eq_refl eq_refl) as [Hkeys Hlast].
  split; [exact Hkeys|].
  exact (Hlast [Ok Sample.jbod1; Ok Sample.jbod2] Sample.jbod1' [] _
           eq_refl eq_refl (List.Forall_nil _)).
Defined.

(** [main] on the outcome of [sas_sd_snic_alias]. *)
Lemma main_raise (w : World) (argv0 blkdev : string) (e : exn) (out : list output) :
  sas_sd_snic_alias w blkdev = (Raise e, out) ->
  main w [argv0; blkdev]
  = {| written := out ++ [if is_KeyError e then NotFound e else Traceback e];
       exit_status := 1 |}.
Proof.
  intros Hrun. unfold main. rewrite Hrun. destruct e; reflexivity.
Qed.

(** C2, as stated, fails: with an unreadable enclosure node before two
    healthy ones the preload raises, and a disk behind a healthy enclosure,
    which resolves when the unreadable node is not there, gets no alias. *)
Lemma unreadable_enclosure_breaks_healthy_ones :
  class_enclosure Sample.broken = Ok [Sample.unreadable; Ok Sample.jbod1; Ok Sample.jbod2]
  /\ preload_enclosures Sample.broken
     = (Raise (OtherError "IOError" "Input/output error"), [])
  /\ sas_sd_snic_alias Sample.broken "sdb"
     = (Raise (OtherError "IOError" "Input/output error"), [])
  /\ main Sample.broken ["sas_sd_snic_alias"; "sdb"]
     = {| written := [Traceback (OtherError "IOError" "Input/output error")];
          exit_status := 1 |}
  /\ sas_sd_snic_alias Sample.healthy "sdb" = (Ok "rack7-encl2-bay03", []).
Proof. repeat split. Qed.

(** C2 (amended): the preload does not catch what reading an enclosure node
    raises.  The exception of the first unreadable node ends the preload
    and the command, nothing is logged, and no alias is printed for any
    block device: the process ends with status 1. *)
Theorem unreadable_enclosure_aborts (w : World) (before : list (result EnclosureDevice))
    (bad : result EnclosureDevice) (after : list (result EnclosureDevice)) (e : exn) :
  class_enclosure w = Ok (before ++ bad :: after) ->
  Forall (fun encl => exists key, node_key encl = Ok key) before ->
  node_key bad = Raise e ->
  preload_enclosures w = (Raise e, [])
  /\ forall argv0 blkdev,
       sas_sd_snic_alias w blkdev = (Raise e, [])
       /\ stdout (written (main w [argv0; blkdev])) = []
       /\ exit_status (main w [argv0; blkdev]) = 1.
Proof.
  intros Hnodes Hbefore Hbad.
  assert (Hpre : preload_enclosures w = (Raise e, [])).
  { rewrite (preload_enclosures_nodes _ _ Hnodes).
    exact (preload_loop_raise _ _ _ _ _ Hbefore Hbad). }
  split; [exact Hpre|]. intros argv0 blkdev.
  assert (Hrun : sas_sd_snic_alias w blkdev = (Raise e, [])).
  { unfold sas_sd_snic_alias. rewrite Hpre. reflexivity. }
  rewrite (main_raise _ _ _ _ _ Hrun). repeat split; [exact Hrun|].
  destruct e; reflexivity.
Qed.

Lemma unreadable_enclosure_aborts_sdb :
  class_enclosure Sample.broken = Ok ([] ++ Sample.unreadable :: [Ok Sample.jbod1; Ok Sample.jbod2])
  /\ Forall (fun encl => exists key, node_key encl = Ok key) []
  /\ node_key Sample.unreadable = Raise (OtherError "IOError" "Input/output error")
  /\ sas_sd_snic_alias Sample.broken "sdb"
     = (Raise (OtherError "IOError" "Input/output error"), [])
  /\ stdout (written (main Sample.broken ["sas_sd_snic_alias"; "sdb"])) = []
  /\ exit_status (main Sample.broken ["sas_sd_snic_alias"; "sdb"]) = 1.
Proof.
  split; [reflexivity|]. split; [constructor|]. split; [reflexivity|].
  exact (proj2 (unreadable_enclosure_aborts Sample.broken [] Sample.unreadable
                  [Ok Sample.jbod1; Ok Sample.jbod2] _ eq_refl (List.Forall_nil _) eq_refl)
           "sas_sd_snic_alias" "sdb").
Defined.

(** ** Finding the SES sg name *)

Lemma bind_raise {A B} (m : M A) (f : A -> M B) (e : exn) (out : list output) :
  m = (Raise e, out) -> bind m f = (Raise e, out).
Proof. intros ->. reflexivity. Qed.

Lemma bind_ok_silent {A B} (m : M A) (f : A -> M B) (a : A) :
  m = (Ok a, []) -> bind m f = f a.
Proof. intros ->. unfold bind. destruct (f a). reflexivity. Qed.

Section Lookup.
Variable enclosures : gmap (option string) EnclosureDevice.
Variable blkdev : SASBlockDevice.
Variable sasdev : SASDevice.

(** The link is there: the name comes from the array device alone. *)
Lemma lookup_ses_sg_array (array : ArrayDevice) :
  array_device blkdev = Ok (Some array) ->
  lookup_ses_sg enclosures blkdev sasdev = read (enclosure_scsi_generic_sg_name array).
Proof.
  intros Harray. unfold lookup_ses_sg. rewrite Harray.
  unfold bind, read. rewrite app_nil_l. reflexivity.
Qed.

(** The link is absent and the dict has the enclosure. *)
Lemma lookup_ses_sg_found (key : attr) (encl : EnclosureDevice) (sg : string) :
  array_device blkdev = Ok None ->
  enclosure_identifier sasdev = Ok key ->
  enclosures !! key = Some encl ->
  scsi_generic_sg_name encl = Ok sg ->
  lookup_ses_sg enclosures blkdev sasdev = (Ok sg, []).
Proof.
  intros Harray Hid Hencl Hsg. unfold lookup_ses_sg, dict_getitem.
  rewrite Harray, Hid. cbn. rewrite Hencl. cbn. rewrite Hsg. reflexivity.
Qed.

(** The link is absent and the dict does not have the enclosure. *)
Lemma lookup_ses_sg_missing (key : attr) :
  array_device blkdev = Ok None ->
  enclosure_identifier sasdev = Ok key ->
  enclosures !! key = None ->
  lookup_ses_sg enclosures blkdev sasdev = (Raise (KeyError key), [not_an_array_device blkdev]).
Proof.
  intros Harray Hid Hencl. unfold lookup_ses_sg, dict_getitem.
  rewrite Harray, Hid. cbn. rewrite Hencl. reflexivity.
Qed.

(** Whatever happens, the lookup either writes nothing or logs the one
    warning and fails. *)
Lemma lookup_ses_sg_written (r : result string) (out : list output) :
  lookup_ses_sg enclosures blkdev sasdev = (r, out) ->
  out = [] \/ (out = [not_an_array_device blkdev] /\ exists key, r = Raise (KeyError key)).
Proof.
  unfold lookup_ses_sg, dict_getitem.
  destruct (array_device blkdev) as [[array|]|e]; cbn.
  - intros [= _ <-]. left. reflexivity.
  - destruct (enclosure_identifier sasdev) as [key|e]; cbn.
    + destruct (enclosures !! key) as [encl|]; cbn.
      * destruct (scsi_generic_sg_name encl) as [sg|e]; cbn.
        -- intros [= _ <-]. left. reflexivity.
        -- destruct e; cbn; intros [= <- <-]; eauto.
      * intros [= <- <-]. eauto.
    + destruct e; cbn; intros [= <- <-]; eauto.
  - intros [= _ <-]. left. reflexivity.
Qed.
End Lookup.

(** ** From the block device to the alias *)

Lemma sas_sd_snic_alias_preloaded (w : World) (enclosures : gmap (option string) EnclosureDevice)
    (blkdev : string) :
  (preload_enclosures w).1 = Ok enclosures ->
  sas_sd_snic_alias w blkdev = alias_from w enclosures blkdev.
Proof.
  intros Hpre.
  refine (bind_ok_silent _ (fun enclosures => alias_from w enclosures blkdev) enclosures _).
  rewrite <- Hpre, <- (preload_enclosures_silent w).
  destruct (preload_enclosures w). reflexivity.
Qed.

Lemma alias_from_device (w : World) (enclosures : gmap (option string) EnclosureDevice)
    (blkdev : string) (b : SASBlockDevice) (sasdev : SASDevice) :
  block w (whole_disk_name blkdev) = Ok b ->
  end_device_sas_device b = Ok sasdev ->
  alias_from w enclosures blkdev
  = (let* ses_sg := lookup_ses_sg enclosures b sasdev in
     let* bay := read (and_then (bay_identifier sasdev) Py.int) in
     let* nickname := read (ses_get_snic_nickname w ses_sg) in
     ret (format_alias nickname bay (name b)))%py.
Proof.
  unfold whole_disk_name, alias_from. intros Hblock Hsasdev.
  rewrite (bind_read_ok _ _ _ Hblock), (bind_read_ok _ _ _ Hsasdev). reflexivity.
Qed.

(** Once the sg name is found without a warning, the alias is the formatted
    bay and nickname. *)
Lemma alias_from_resolved (w : World) (enclosures : gmap (option string) EnclosureDevice)
    (blkdev : string) (b : SASBlockDevice) (sasdev : SASDevice)
    (ses_sg : string) (bay : Z) (nickname : option string) :
  block w (whole_disk_name blkdev) = Ok b ->
  end_device_sas_device b = Ok sasdev ->
  lookup_ses_sg enclosures b sasdev = (Ok ses_sg, []) ->
  and_then (bay_identifier sasdev) Py.int = Ok bay ->
  ses_get_snic_nickname w ses_sg = Ok nickname ->
  alias_from w enclosures blkdev = (Ok (format_alias nickname bay (name b)), []).
Proof.
  intros Hblock Hsasdev Hsg Hbay Hnick.
  rewrite (alias_from_device _ _ _ _ _ Hblock Hsasdev).
  rewrite (bind_ok_silent _ _ _ Hsg), (bind_read_ok _ _ _ Hbay), (bind_read_ok _ _ _ Hnick).
  reflexivity.
Qed.

(** C1: when the block device has its array device, the SES sg name is the
    one read through the array device's enclosure, whether that read
    succeeds or raises; nothing is logged, the preloaded dict is not
    consulted: the lookup and the alias are the same for any two dicts. *)
Theorem array_device_is_authoritative (w : World) (blkdev : string) (b : SASBlockDevice)
    (array : ArrayDevice) :
  block w (whole_disk_name blkdev) = Ok b ->
  array_device b = Ok (Some array) ->
  (forall enclosures sasdev,
      lookup_ses_sg enclosures b sasdev = (enclosure_scsi_generic_sg_name array, []))
  /\ (forall enclosures enclosures',
         alias_from w enclosures blkdev = alias_from w enclosures' blkdev).
Proof.
  intros Hblock Harray. split.
  - intros enclosures sasdev. exact (lookup_ses_sg_array _ _ _ _ Harray).
  - intros enclosures enclosures'.
    destruct (end_device_sas_device b) as [sasdev|e] eqn:Hsasdev.
    + rewrite !(alias_from_device _ _ _ _ _ Hblock Hsasdev).
      rewrite !(lookup_ses_sg_array _ _ _ _ Harray). reflexivity.
    + unfold whole_disk_name in Hblock. unfold alias_from.
      rewrite !(bind_read_ok _ _ _ Hblock), !(bind_read_raise _ _ _ Hsasdev). reflexivity.
Qed.

Lemma array_device_is_authoritative_sdc :
  block Sample.healthy (whole_disk_name "sdc")
  = Ok (Sample.disk "sdc" (Some "sg3") "0x5000ccab0405db00" "12")
  /\ array_device (Sample.disk "sdc" (Some "sg3") "0x5000ccab0405db00" "12")
     = Ok (Some {| enclosure_scsi_generic_sg_name := Ok "sg3" |})
  /\ (forall enclosures sasdev,
         lookup_ses_sg enclosures (Sample.disk "sdc" (Some "sg3") "0x5000ccab0405db00" "12") sasdev
         = (Ok "sg3", []))
  /\ (forall enclosures enclosures',
         alias_from Sample.healthy enclosures "sdc" = alias_from Sample.healthy enclosures' "sdc").
Proof.
  split; [reflexivity|]. split; [reflexivity|].
  exact (array_device_is_authoritative Sample.healthy "sdc" _ _ eq_refl eq_refl).
Defined.

(** C3: a block device without array device whose enclosure identifier is
    not a key of the preloaded dict gets no alias: the lookup raises
    [KeyError], the warning naming the device is logged, [main] reports
    "Not found" on standard error, writes nothing on standard output and
    the process ends with status 1. *)
Theorem unknown_enclosure_is_not_found (w : World) (argv0 blkdev : string)
    (enclosures : gmap (option string) EnclosureDevice)
    (b : SASBlockDevice) (sasdev : SASDevice) (key : attr) :
  (preload_enclosures w).1 = Ok enclosures ->
  block w (whole_disk_name blkdev) = Ok b ->
  end_device_sas_device b = Ok sasdev ->
  array_device b = Ok None ->
  enclosure_identifier sasdev = Ok key ->
  enclosures !! key = None ->
  sas_sd_snic_alias w blkdev = (Raise (KeyError key), [not_an_array_device b])
  /\ main w [argv0; blkdev]
     = {| written := [not_an_array_device b; NotFound (KeyError key)]; exit_status := 1 |}
  /\ stdout (written (main w [argv0; blkdev])) = []
  /\ stderr (written (main w [argv0; blkdev]))
     = [LogWarning (name b +:+ " not an array device (" +:+ sysfsnode_path b +:+ ")");
        NotFound (KeyError key)].
Proof.
  intros Hpre Hblock Hsasdev Harray Hid Hmiss.
  assert (Hrun : sas_sd_snic_alias w blkdev = (Raise (KeyError key), [not_an_array_device b])).
  { rewrite (sas_sd_snic_alias_preloaded _ _ _ Hpre).
    rewrite (alias_from_device _ _ _ _ _ Hblock Hsasdev).
    apply bind_raise. exact (lookup_ses_sg_missing _ _ _ _ Harray Hid Hmiss). }
  rewrite (main_raise _ _ _ _ _ Hrun). repeat split. exact Hrun.
Qed.

Lemma unknown_enclosure_is_not_found_sdz :
  exists enclosures,
    (preload_enclosures Sample.healthy).1 = Ok enclosures
    /\ block Sample.healthy (whole_disk_name "sdz")
       = Ok (Sample.disk "sdz" None "0x5000c50000000000" "0")
    /\ enclosures !! Some "0x5000c50000000000" = None
    /\ sas_sd_snic_alias Sample.healthy "sdz"
       = (Raise (KeyError (Some "0x5000c50000000000")),
          [LogWarning "sdz not an array device (/sys/block/sdz/device)"])
    /\ exit_status (main Sample.healthy ["sas_sd_snic_alias"; "sdz"]) = 1.
Proof.
  eexists. split; [reflexivity|]. split; [reflexivity|]. split; [reflexivity|].
  destruct (unknown_enclosure_is_not_found Sample.healthy "sas_sd_snic_alias" "sdz" _ _ _ _
              eq_refl eq_refl eq_refl eq_refl eq_refl eq_refl) as (Hrun & Hmain & _).
  split; [exact Hrun|]. rewrite Hmain. reflexivity.
Defined.

(** C4: a block device without array device whose enclosure identifier is
    a key of the preloaded dict is resolved through the dict: the SES sg
    name is the one of the enclosure filed under that key, nothing is
    logged, and the alias is made of the nickname queried on that sg name
    and of the bay. *)
Theorem known_enclosure_resolves (w : World) (blkdev : string)
    (enclosures : gmap (option string) EnclosureDevice)
    (b : SASBlockDevice) (sasdev : SASDevice) (key : attr)
    (encl : EnclosureDevice) (sg : string) :
  (preload_enclosures w).1 = Ok enclosures ->
  block w (whole_disk_name blkdev) = Ok b ->
  end_device_sas_device b = Ok sasdev ->
  array_device b = Ok None ->
  enclosure_identifier sasdev = Ok key ->
  enclosures !! key = Some encl ->
  scsi_generic_sg_name encl = Ok sg ->
  lookup_ses_sg enclosures b sasdev = (Ok sg, [])
  /\ forall bay nickname,
       and_then (bay_identifier sasdev) Py.int = Ok bay ->
       ses_get_snic_nickname w sg = Ok nickname ->
       sas_sd_snic_alias w blkdev = (Ok (format_alias nickname bay (name b)), []).
Proof.
  intros Hpre Hblock Hsasdev Harray Hid Hencl Hsg.
  pose proof (lookup_ses_sg_found _ _ _ _ _ _ Harray Hid Hencl Hsg) as Hlookup.
  split; [exact Hlookup|]. intros bay nickname Hbay Hnick.
  rewrite (sas_sd_snic_alias_preloaded _ _ _ Hpre).
  exact (alias_from_resolved _ _ _ _ _ _ _ _ Hblock Hsasdev Hlookup Hbay Hnick).
Qed.

Lemma known_enclosure_resolves_sdb :
  exists enclosures,
    (preload_enclosures Sample.healthy).1 = Ok enclosures
    /\ block Sample.healthy (whole_disk_name "sdb1")
       = Ok (Sample.disk "sdb" None "0x5000ccab0405db00" "3")
    /\ enclosures !! Some "0x5000ccab0405db00" = Some Sample.jbod1
    /\ scsi_generic_sg_name Sample.jbod1 = Ok "sg3"
    /\ ses_get_snic_nickname Sample.healthy "sg3" = Ok (Some "rack7-encl2")
    /\ sas_sd_snic_alias Sample.healthy "sdb1" = (Ok "rack7-encl2-bay03", []).
Proof.
  eexists. do 5 (split; [reflexivity|]).
  exact (proj2 (known_enclosure_resolves Sample.healthy "sdb1" _ _ _ _ _ _
                  eq_refl eq_refl eq_refl eq_refl eq_refl eq_refl eq_refl)
           3 (Some "rack7-encl2") eq_refl eq_refl).
Defined.

(** ** The bay identifier *)

Lemma int_rejects (s : string) :
  Py.parse_int s = None -> exists msg, Py.int (Some s) = Raise (ValueError msg).
Proof.
  unfold Py.parse_int, Py.int. destruct (Py.int_literal s); [discriminate | eauto..].
Qed.

Lemma int_accepts (s : string) (z : Z) :
  Py.parse_int s = Some z -> Py.int (Some s) = Ok z.
Proof.
  unfold Py.parse_int, Py.int. destruct (Py.int_literal s); congruence.
Qed.

Lemma bay_unusable_raises (sasdev : SASDevice) :
  bay_unusable sasdev -> exists e, and_then (bay_identifier sasdev) Py.int = Raise e.
Proof.
  unfold bay_unusable, and_then.
  destruct (bay_identifier sasdev) as [[s|]|e]; intros Hbad; [|eauto..].
  destruct (int_rejects _ Hbad) as [msg Hmsg]. eauto.
Qed.

(** What an integer literal may be made of. *)
Lemma contains_app (a b : string) (c : ascii) :
  Py.contains (a +:+ b) c = Py.contains a c || Py.contains b c.
Proof.
  induction a as [|d a IH]; [reflexivity|].
  rewrite append_cons. cbn [Py.contains]. rewrite IH. apply orb_assoc.
Qed.

Lemma all_in_app (chars s t : string) :
  all_in chars (s +:+ t) = all_in chars s && all_in chars t.
Proof.
  induction s as [|c s IH]; [reflexivity|].
  rewrite append_cons. cbn [all_in]. rewrite IH. apply andb_assoc.
Qed.

Lemma all_in_weaken (chars chars' s : string) :
  (forall c, Py.contains chars c = true -> Py.contains chars' c = true) ->
  all_in chars s = true -> all_in chars' s = true.
Proof.
  intros Hsub. induction s as [|c s IH]; [reflexivity|].
  cbn [all_in]. rewrite !andb_true_iff. intros [Hc Hs]. auto.
Qed.

Lemma lstrip_prefix (chars s : string) :
  exists prefix, s = prefix +:+ Py.lstrip chars s /\ all_in chars prefix = true.
Proof.
  induction s as [|c s (prefix & Hs & Hall)].
  - exists "". split; reflexivity.
  - cbn [Py.lstrip]. destruct (Py.contains chars c) eqn:Hc.
    + exists (String c prefix). rewrite append_cons. cbn [all_in].
      rewrite Hc, Hall, <- Hs. split; reflexivity.
    + exists "". split; reflexivity.
Qed.

Lemma digits_value_characters (s : string) (acc : Z) (after_digit : bool) (z : Z) :
  Py.digits_value acc after_digit s = Some z -> all_in "0123456789_" s = true.
Proof.
  revert acc after_digit. induction s as [|c s IH]; intros acc after_digit; [reflexivity|].
  cbn [Py.digits_value all_in]. unfold Py.is_digit, Py.digits.
  change "0123456789_" with ("0123456789" +:+ "_"). rewrite contains_app.
  destruct (Py.contains "0123456789" c); cbn [orb andb].
  - apply IH.
  - cbn [Py.contains]. rewrite orb_false_r.
    destruct (Ascii.eqb c "_"); cbn [andb]; [|discriminate].
    destruct after_digit; [apply IH | discriminate].
Qed.

(** A text that [int] accepts has only digits, underscores, signs and
    white space. *)
Lemma parse_int_characters (s : string) (z : Z) :
  Py.parse_int s = Some z -> all_in ("0123456789_" +:+ "+-" +:+ Py.whitespace) s = true.
Proof.
  unfold Py.parse_int, Py.int_literal. cbv zeta. intros Hparse.
  destruct (lstrip_prefix Py.whitespace s) as (prefix & Hs & Hprefix).
  set (t := Py.lstrip Py.whitespace s) in *.
  set (ds := if Py.starts_with "-" t || Py.starts_with "+" t then Py.tail t else t) in *.
  assert (Hspace : forall c, Py.contains Py.whitespace c = true ->
                             Py.contains ("0123456789_" +:+ "+-" +:+ Py.whitespace) c = true).
  { intros c Hc. rewrite !contains_app, Hc, !orb_true_r. reflexivity. }
  assert (Hdigit : forall c, Py.contains "0123456789_" c = true ->
                             Py.contains ("0123456789_" +:+ "+-" +:+ Py.whitespace) c = true).
  { intros c Hc. rewrite contains_app, Hc. reflexivity. }
  assert (Hds : all_in ("0123456789_" +:+ "+-" +:+ Py.whitespace) ds = true).
  { destruct (Py.starts_with "_" ds); [discriminate|].
    destruct (Py.scan_run false ds) as [ndigits|]; [|discriminate].
    destruct (Py.max_str_digits <? ndigits)%nat; [discriminate|].
    destruct (Py.digits_value 0 false (Py.rstrip Py.whitespace ds)) as [z0|] eqn:Hvalue;
      [|discriminate].
    destruct (rstrip_suffix Py.whitespace ds) as (suffix & Hsplit & Hsuffix).
    rewrite Hsplit, all_in_app.
    rewrite (all_in_weaken _ _ _ Hdigit (digits_value_characters _ _ _ _ Hvalue)).
    exact (all_in_weaken _ _ _ Hspace Hsuffix). }
  assert (Ht : all_in ("0123456789_" +:+ "+-" +:+ Py.whitespace) t = true).
  { subst ds. destruct t as [|c t']; [reflexivity|].
    cbn [Py.starts_with Py.tail] in Hds.
    destruct (Ascii.eqb c "-" || Ascii.eqb c "+") eqn:Hsign; [|exact Hds].
    cbn [all_in]. rewrite Hds, andb_true_r, !contains_app. cbn [Py.contains].
    destruct (Ascii.eqb c "+"), (Ascii.eqb c "-"); try discriminate;
      cbn [orb]; rewrite ?orb_true_r; reflexivity. }
  rewrite Hs, all_in_app, (all_in_weaken _ _ _ Hspace Hprefix), Ht. reflexivity.
Qed.

(** A bay identifier with any other character is unusable. *)
Lemma other_character_unusable (sasdev : SASDevice) (s : string) :
  bay_identifier sasdev = Ok (Some s) ->
  all_in ("0123456789_" +:+ "+-" +:+ Py.whitespace) s = false ->
  bay_unusable sasdev.
Proof.
  intros Hbay Hchars. unfold bay_unusable. rewrite Hbay.
  destruct (Py.parse_int s) as [z|] eqn:Hparse; [|reflexivity].
  rewrite (parse_int_characters _ _ Hparse) in Hchars. discriminate.
Qed.

(** Decimal numerals and their value. *)
Lemma digits_value_acc (d : Decimal.uint) (p : positive) :
  Py.digits_value (Z.pos p) true (NilEmpty.string_of_uint d)
  = Some (Z.pos (Pos.of_uint_acc d p)).
Proof.
  revert p. induction d as [| d IH | d IH | d IH | d IH | d IH | d IH | d IH | d IH | d IH | d IH];
    intros p; [reflexivity | ..];
    cbn [NilEmpty.string_of_uint Py.digits_value Pos.of_uint_acc];
    change (Py.is_digit _) with true; cbv iota; rewrite <- IH; f_equal;
    unfold Py.digit_value;
    match goal with
    | |- context [Z.of_nat (nat_of_ascii ?c)] =>
        let v := eval vm_compute in (Z.of_nat (nat_of_ascii c)) in
        change (Z.of_nat (nat_of_ascii c)) with v
    end; lia.
Qed.

Lemma digits_value_uint (d : Decimal.uint) (after_digit : bool) :
  after_digit = true \/ d <> Decimal.Nil ->
  Py.digits_value 0 after_digit (NilEmpty.string_of_uint d) = Some (Z.of_N (Pos.of_uint d)).
Proof.
  revert after_digit.
  induction d as [| d IH | d IH | d IH | d IH | d IH | d IH | d IH | d IH | d IH | d IH];
    intros after_digit Hstart.
  - destruct Hstart as [-> | Hnil]; [reflexivity | congruence].
  - cbn [NilEmpty.string_of_uint Py.digits_value Pos.of_uint].
    change (Py.is_digit _) with true. cbv iota. apply IH. left. reflexivity.
  - exact (digits_value_acc d 1).
  - exact (digits_value_acc d 2).
  - exact (digits_value_acc d 3).
  - exact (digits_value_acc d 4).
  - exact (digits_value_acc d 5).
  - exact (digits_value_acc d 6).
  - exact (digits_value_acc d 7).
  - exact (digits_value_acc d 8).
  - exact (digits_value_acc d 9).
Qed.

Lemma to_uint_nonnil (n : N) : N.to_uint n <> Decimal.Nil.
Proof.
  destruct n as [|p]; [discriminate|]. apply DecimalPos.Unsigned.to_uint_nonnil.
Qed.

Lemma str_nat_unfold (n : N) : Py.str_nat n = NilEmpty.string_of_uint (N.to_uint n).
Proof.
  unfold Py.str_nat. pose proof (to_uint_nonnil n) as Hnil.
  destruct (N.to_uint n); [congruence | reflexivity..].
Qed.

(** [str] then the digits of [int]. *)
Lemma digits_value_str_nat (n : N) (after_digit : bool) :
  Py.digits_value 0 after_digit (Py.str_nat n) = Some (Z.of_N n).
Proof.
  rewrite str_nat_unfold, digits_value_uint by (right; apply to_uint_nonnil).
  change (Pos.of_uint (N.to_uint n)) with (N.of_uint (N.to_uint n)).
  rewrite DecimalN.Unsigned.of_to. reflexivity.
Qed.

Lemma all_in_uint (d : Decimal.uint) : all_in "0123456789" (NilEmpty.string_of_uint d) = true.
Proof.
  induction d; cbn [NilEmpty.string_of_uint all_in]; [reflexivity | ..];
    rewrite IHd; reflexivity.
Qed.

Lemma digit_is_plain (c : ascii) :
  Py.is_digit c = true ->
  Ascii.eqb c "-" = false /\ Ascii.eqb c "+" = false /\ Ascii.eqb c "_" = false
  /\ Py.contains Py.whitespace c = false.
Proof.
  destruct c as [[] [] [] [] [] [] [] []]; cbn; intros H;
    first [discriminate | repeat split; reflexivity].
Qed.

Lemma scan_run_digits (ds : string) :
  all_in "0123456789" ds = true -> Py.scan_run false ds = Some (String.length ds).
Proof.
  induction ds as [|c ds IH]; [reflexivity|].
  cbn [all_in Py.scan_run String.length]. intros [Hc Hds]%andb_true_iff.
  unfold Py.is_digit, Py.digits. rewrite Hc, (IH Hds). reflexivity.
Qed.

(** Characters that are not in [chars] stay where they are. *)
Lemma rstrip_keep (keep chars s : string) :
  (forall c, Py.contains keep c = true -> Py.contains chars c = false) ->
  all_in keep s = true -> Py.rstrip chars s = s.
Proof.
  intros Hkeep. induction s as [|c s IH]; [reflexivity|].
  cbn [all_in Py.rstrip]. intros [Hc Hs]%andb_true_iff.
  rewrite (IH Hs), (Hkeep _ Hc). destruct s; reflexivity.
Qed.

(** A text of at most [max_str_digits] digits is read as its value. *)
Lemma int_literal_digits (ds : string) (z : Z) :
  all_in "0123456789" ds = true ->
  (String.length ds <= Py.max_str_digits)%nat ->
  Py.digits_value 0 false ds = Some z ->
  Py.int_literal ds = Py.Value z.
Proof.
  intros Hall Hlen Hvalue.
  assert (Hplain : forall c, Py.contains "0123456789" c = true ->
                             Py.contains Py.whitespace c = false).
  { intros c Hc. apply (digit_is_plain c Hc). }
  destruct ds as [|c ds]; [discriminate|].
  pose proof Hall as Hc. cbn [all_in] in Hc. apply andb_true_iff in Hc as [Hc _].
  destruct (digit_is_plain c Hc) as (Hminus & Hplus & Hunder & Hspace).
  unfold Py.int_literal. cbn [Py.lstrip]. rewrite Hspace. cbv zeta.
  cbn [Py.starts_with]. rewrite Hminus, Hplus. cbn [orb]. cbv iota.
  cbn [Py.starts_with]. rewrite Hunder.
  rewrite (scan_run_digits _ Hall).
  destruct (Nat.ltb_spec Py.max_str_digits (String.length (String c ds))) as [Hlt|_]; [lia|].
  rewrite (rstrip_keep _ _ _ Hplain Hall), Hvalue. reflexivity.
Qed.

(** [int] of the decimal numeral of a number is that number. *)
Lemma int_str_nat (n : N) :
  (String.length (Py.str_nat n) <= 4300)%nat ->
  Py.int (Some (Py.str_nat n)) = Ok (Z.of_N n).
Proof.
  intros Hlen. apply int_accepts. unfold Py.parse_int.
  rewrite (int_literal_digits _ (Z.of_N n)); [reflexivity | | exact Hlen |].
  - rewrite str_nat_unfold. apply all_in_uint.
  - apply digits_value_str_nat.
Qed.

(** C8: the bay identifier goes through [int].  When the attribute is the
    decimal numeral of a number (of at most 4300 digits) that number is
    the bay of the alias.  When the attribute cannot be read, has no value
    or is not an integer literal, [sas_sd_snic_alias] raises instead of
    returning an alias (no default stands in for the bay), and the process
    writes nothing on standard output, ends its standard error with the
    report of that exception and exits with status 1. *)
Theorem bay_is_parsed_or_fatal (w : World) (argv0 blkdev : string)
    (b : SASBlockDevice) (sasdev : SASDevice) :
  block w (whole_disk_name blkdev) = Ok b ->
  end_device_sas_device b = Ok sasdev ->
  (forall enclosures sg nickname n,
      (preload_enclosures w).1 = Ok enclosures ->
      lookup_ses_sg enclosures b sasdev = (Ok sg, []) ->
      ses_get_snic_nickname w sg = Ok nickname ->
      bay_identifier sasdev = Ok (Some (Py.str_nat n)) ->
      (String.length (Py.str_nat n) <= 4300)%nat ->
      sas_sd_snic_alias w blkdev = (Ok (format_alias nickname (Z.of_N n) (name b)), []))
  /\ (bay_unusable sasdev ->
      exists e out,
        sas_sd_snic_alias w blkdev = (Raise e, out)
        /\ main w [argv0; blkdev]
           = {| written := out ++ [if is_KeyError e then NotFound e else Traceback e];
                exit_status := 1 |}
        /\ stdout (written (main w [argv0; blkdev])) = []).
Proof.
  intros Hblock Hsasdev. split.
  { intros enclosures sg nickname n Hpre Hlookup Hnick Hvalue Hlen.
    rewrite (sas_sd_snic_alias_preloaded _ _ _ Hpre).
    apply (alias_from_resolved _ _ _ _ _ _ _ _ Hblock Hsasdev Hlookup); [|exact Hnick].
    rewrite Hvalue. exact (int_str_nat _ Hlen). }
  intros [ebay Hbay]%bay_unusable_raises.
  assert (Hrun : exists e out,
             sas_sd_snic_alias w blkdev = (Raise e, out)
             /\ (out = [] \/ out = [not_an_array_device b])).
  { destruct (preload_enclosures w) as [[enclosures|e] out] eqn:Hpre.
    - rewrite (sas_sd_snic_alias_preloaded w enclosures) by (rewrite Hpre; reflexivity).
      rewrite (alias_from_device _ _ _ _ _ Hblock Hsasdev).
      destruct (lookup_ses_sg enclosures b sasdev) as [[sg|e] out'] eqn:Hlookup.
      + destruct (lookup_ses_sg_written _ _ _ _ _ Hlookup) as [-> | (_ & key & [=])].
        exists ebay, []. split; [|left; reflexivity].
        rewrite (bind_ok_silent _ _ _ eq_refl). exact (bind_read_raise _ _ _ Hbay).
      + exists e, out'. split; [exact (bind_raise _ _ _ _ eq_refl)|].
        destruct (lookup_ses_sg_written _ _ _ _ _ Hlookup) as [-> | (-> & _)]; auto.
    - exists e, []. split; [|left; reflexivity].
      pose proof (preload_enclosures_silent w) as Hsilent.
      rewrite Hpre in Hsilent. simpl in Hsilent. subst out.
      unfold sas_sd_snic_alias. rewrite Hpre. reflexivity. }
  destruct Hrun as (e & out & Hrun & Hout). exists e, out.
  rewrite (main_raise _ _ _ _ _ Hrun). split; [exact Hrun|]. split; [reflexivity|].
  destruct Hout as [-> | ->]; destruct e; reflexivity.
Qed.

Lemma bay_is_parsed_or_fatal_sdb_sde :
  (exists enclosures,
      (preload_enclosures Sample.healthy).1 = Ok enclosures
      /\ block Sample.healthy (whole_disk_name "sdb")
         = Ok (Sample.disk "sdb" None "0x5000ccab0405db00" "3")
      /\ lookup_ses_sg enclosures (Sample.disk "sdb" None "0x5000ccab0405db00" "3")
           {| enclosure_identifier := Ok (Some "0x5000ccab0405db00");
              bay_identifier := Ok (Some (Py.str_nat 3)) |}
         = (Ok "sg3", [])
      /\ (String.length (Py.str_nat 3) <= 4300)%nat
      /\ sas_sd_snic_alias Sample.healthy "sdb" = (Ok "rack7-encl2-bay03", []))
  /\ block Sample.healthy (whole_disk_name "sde")
     = Ok (Sample.disk "sde" None "0x5000ccab0405db00" "n/a")
  /\ bay_unusable {| enclosure_identifier := Ok (Some "0x5000ccab0405db00");
                     bay_identifier := Ok (Some "n/a") |}
  /\ exists e out,
       sas_sd_snic_alias Sample.healthy "sde" = (Raise e, out)
       /\ main Sample.healthy ["sas_sd_snic_alias"; "sde"]
          = {| written := out ++ [if is_KeyError e then NotFound e else Traceback e];
               exit_status := 1 |}
       /\ stdout (written (main Sample.healthy ["sas_sd_snic_alias"; "sde"])) = [].
Proof.
  split.
  { eexists. do 3 (split; [reflexivity|]). split; [simpl; lia|].
    exact (proj1 (bay_is_parsed_or_fatal Sample.healthy "sas_sd_snic_alias" "sdb" _ _
                    eq_refl eq_refl)
             _ "sg3" (Some "rack7-encl2") 3%N eq_refl eq_refl eq_refl eq_refl
             ltac:(simpl; lia)). }
  split; [reflexivity|]. split; [reflexivity|].
  exact (proj2 (bay_is_parsed_or_fatal Sample.healthy "sas_sd_snic_alias" "sde" _ _
                  eq_refl eq_refl) eq_refl).
Defined.

Example scenario_sde :
  main Sample.healthy ["sas_sd_snic_alias"; "sde"]
  = {| written := [Traceback (ValueError "invalid literal for int() with base 10: 'n/a'")];
       exit_status := 1 |}.
Proof. reflexivity. Qed.

(** ** The empty nickname *)

Lemma prefix_dash_bay (s t : string) :
  String.prefix "-bay" (s +:+ "_no_snic-bay" +:+ t) = String.prefix "-bay" s.
Proof.
  destruct s as [|c1 [|c2 [|c3 [|c4 s]]]];
    rewrite ?append_cons, ?append_nil_l; cbn [String.prefix];
    repeat first [reflexivity | discriminate | destruct (ascii_dec _ _)
                 | progress cbn [String.prefix]].
  destruct s; reflexivity.
Qed.

(** C10: an empty nickname is treated as an absent one: the alias of a
    device that resolves to bay [b] is the whole-disk name, then
    ["_no_snic-bay"], then [b] in the [02d] format (two digits from 0 to
    99), and it does not begin with ["-bay"].  The label of the block device
    is its whole-disk name, which itself does not begin with ["-bay"] (the
    kernel names of the udev rule begin with ["sd"]). *)
Theorem empty_nickname_is_absent (w : World) (blkdev : string)
    (enclosures : gmap (option string) EnclosureDevice)
    (b : SASBlockDevice) (sasdev : SASDevice) (ses_sg : string) (bay : Z) :
  (preload_enclosures w).1 = Ok enclosures ->
  block w (whole_disk_name blkdev) = Ok b ->
  name b = whole_disk_name blkdev ->
  String.prefix "-bay" (whole_disk_name blkdev) = false ->
  end_device_sas_device b = Ok sasdev ->
  lookup_ses_sg enclosures b sasdev = (Ok ses_sg, []) ->
  and_then (bay_identifier sasdev) Py.int = Ok bay ->
  ses_get_snic_nickname w ses_sg = Ok (Some "") ->
  sas_sd_snic_alias w blkdev
  = (Ok (whole_disk_name blkdev +:+ "_no_snic-bay" +:+ Py.format_02d bay), [])
  /\ format_alias (Some "") bay (name b) = format_alias None bay (name b)
  /\ String.prefix "-bay" (whole_disk_name blkdev +:+ "_no_snic-bay" +:+ Py.format_02d bay)
     = false
  /\ (0 <= bay <= 99 -> Py.format_02d bay = two_digits bay).
Proof.
  intros Hpre Hblock Hname Hdash Hsasdev Hlookup Hbay Hnick.
  split; [|split; [reflexivity|split; [|apply format_02d_two_digits]]].
  - rewrite (sas_sd_snic_alias_preloaded _ _ _ Hpre).
    rewrite (alias_from_resolved _ _ _ _ _ _ _ _ Hblock Hsasdev Hlookup Hbay Hnick).
    rewrite Hname. do 2 f_equal.
    unfold format_alias, ALIAS_FORMAT. cbn [Py.or]. rewrite append_assoc. reflexivity.
  - rewrite prefix_dash_bay. exact Hdash.
Qed.

Lemma empty_nickname_is_absent_sdd :
  exists enclosures,
    (preload_enclosures Sample.healthy).1 = Ok enclosures
    /\ block Sample.healthy (whole_disk_name "sdd")
       = Ok (Sample.disk "sdd" None "0x5000ccab04061200" "7")
    /\ String.prefix "-bay" (whole_disk_name "sdd") = false
    /\ lookup_ses_sg enclosures (Sample.disk "sdd" None "0x5000ccab04061200" "7")
         {| enclosure_identifier := Ok (Some "0x5000ccab04061200");
            bay_identifier := Ok (Some "7") |}
       = (Ok "sg7", [])
    /\ ses_get_snic_nickname Sample.healthy "sg7" = Ok (Some "")
    /\ sas_sd_snic_alias Sample.healthy "sdd" = (Ok "sdd_no_snic-bay07", [])
    /\ String.prefix "-bay" "sdd_no_snic-bay07" = false.
Proof.
  eexists. do 5 (split; [reflexivity|]).
  destruct (empty_nickname_is_absent Sample.healthy "sdd" _ _ _ "sg7" 7
              eq_refl eq_refl eq_refl eq_refl eq_refl eq_refl eq_refl eq_refl)
    as (Hrun & _ & Hdash & _).
  split; [exact Hrun | exact Hdash].
Defined.

(** * Further properties of the command *)

(** ** Partitions and whole disks *)

Lemma append_snoc (s t : string) (c : ascii) : s +:+ String c t = (s +:+ String c "") +:+ t.
Proof. rewrite append_assoc. reflexivity. Qed.

(** Characters of [chars] added at the end are stripped with the rest. *)
Lemma rstrip_app (chars s suffix : string) :
  all_in chars suffix = true -> Py.rstrip chars (s +:+ suffix) = Py.rstrip chars s.
Proof.
  revert s. induction suffix as [|c suffix IH]; intros s Hall.
  - clear Hall. induction s as [|d s IHs]; [reflexivity|].
    rewrite append_cons. cbn [Py.rstrip]. rewrite IHs. reflexivity.
  - cbn [all_in] in Hall. apply andb_true_iff in Hall as [Hc Hall].
    rewrite append_snoc, (IH _ Hall), rstrip_snoc, Hc. reflexivity.
Qed.

(** X1: every partition of a disk gets the alias of the disk: decimal
    digits added after a block device name change nothing to what the
    command returns, logs or prints (a name made of digits only is looked
    up as the empty name). *)
Theorem partitions_share_the_alias (w : World) (argv0 blkdev digits : string) :
  all_in "0123456789" digits = true ->
  whole_disk_name (blkdev +:+ digits) = whole_disk_name blkdev
  /\ whole_disk_name (whole_disk_name blkdev) = whole_disk_name blkdev
  /\ sas_sd_snic_alias w (blkdev +:+ digits) = sas_sd_snic_alias w blkdev
  /\ main w [argv0; blkdev +:+ digits] = main w [argv0; blkdev].
Proof.
  intros Hdigits.
  assert (Hname : whole_disk_name (blkdev +:+ digits) = whole_disk_name blkdev)
    by exact (rstrip_app _ _ _ Hdigits).
  assert (Hrun : sas_sd_snic_alias w (blkdev +:+ digits) = sas_sd_snic_alias w blkdev).
  { unfold sas_sd_snic_alias, alias_from. fold (whole_disk_name (blkdev +:+ digits)).
    rewrite Hname. reflexivity. }
  split; [exact Hname|]. split; [|split; [exact Hrun|]].
  - destruct (rstrip_suffix "0123456789" blkdev) as (suffix & Hsplit & Hsuffix).
    fold (whole_disk_name blkdev) in Hsplit.
    rewrite Hsplit at 2. symmetry. exact (rstrip_app _ _ _ Hsuffix).
  - unfold main. rewrite Hrun. reflexivity.
Qed.

Lemma partitions_share_the_alias_sdb12 :
  all_in "0123456789" "12" = true
  /\ sas_sd_snic_alias Sample.healthy ("sdb" +:+ "12") = sas_sd_snic_alias Sample.healthy "sdb"
  /\ sas_sd_snic_alias Sample.healthy "sdb12" = (Ok "rack7-encl2-bay03", []).
Proof.
  split; [reflexivity|].
  split; [|reflexivity].
  exact (proj1 (proj2 (proj2 (partitions_share_the_alias Sample.healthy "sas_sd_snic_alias"
                                "sdb" "12" eq_refl)))).
Defined.

(** ** What the process writes *)

Lemma format_alias_nonempty (nickname : option string) (bay : Z) (label : string) :
  format_alias nickname bay label <> "".
Proof.
  unfold format_alias, ALIAS_FORMAT.
  destruct (Py.or nickname (label +:+ "_no_snic")); [|rewrite append_cons]; discriminate.
Qed.

(** A run either returns an alias and writes nothing, or raises having
    written at most the "not an array device" warning. *)
Lemma alias_from_outcome (w : World) (enclosures : gmap (option string) EnclosureDevice)
    (blkdev : string) (r : result string) (out : list output) :
  alias_from w enclosures blkdev = (r, out) ->
  (exists alias, r = Ok alias /\ out = [] /\ alias <> "")
  \/ (exists e, r = Raise e /\ stdout out = []).
Proof.
  destruct (block w (whole_disk_name blkdev)) as [b|e] eqn:Hblock.
  - destruct (end_device_sas_device b) as [sasdev|e] eqn:Hsasdev.
    + rewrite (alias_from_device _ _ _ _ _ Hblock Hsasdev).
      destruct (lookup_ses_sg enclosures b sasdev) as [[sg|e] out'] eqn:Hlookup.
      * destruct (lookup_ses_sg_written _ _ _ _ _ Hlookup) as [-> | (_ & key & [=])].
        rewrite (bind_ok_silent _ _ _ eq_refl). cbv beta.
        destruct (and_then (bay_identifier sasdev) Py.int) as [bay|e] eqn:Hbay.
        -- rewrite (bind_read_ok _ _ _ eq_refl).
           destruct (ses_get_snic_nickname w sg) as [nickname|e] eqn:Hnick.
           ++ rewrite (bind_read_ok _ _ _ eq_refl). intros [= <- <-]. left.
              eexists. split; [reflexivity|]. split; [reflexivity|].
              apply format_alias_nonempty.
           ++ rewrite (bind_read_raise _ _ _ eq_refl). intros [= <- <-]. right. eauto.
        -- rewrite (bind_read_raise _ _ _ eq_refl). intros [= <- <-]. right. eauto.
      * rewrite (bind_raise _ _ _ _ eq_refl). intros [= <- <-]. right.
        exists e. split; [reflexivity|].
        destruct (lookup_ses_sg_written _ _ _ _ _ Hlookup) as [-> | (-> & _)]; reflexivity.
    + unfold whole_disk_name in Hblock. unfold alias_from.
      rewrite (bind_read_ok _ _ _ Hblock), (bind_read_raise _ _ _ Hsasdev).
      intros [= <- <-]. right. eauto.
  - unfold whole_disk_name in Hblock. unfold alias_from.
    rewrite (bind_read_raise _ _ _ Hblock). intros [= <- <-]. right. eauto.
Qed.

Lemma sas_sd_snic_alias_outcome (w : World) (blkdev : string) (r : result string)
    (out : list output) :
  sas_sd_snic_alias w blkdev = (r, out) ->
  (exists alias, r = Ok alias /\ out = [] /\ alias <> "")
  \/ (exists e, r = Raise e /\ stdout out = []).
Proof.
  destruct (preload_enclosures w) as [[enclosures|e] out'] eqn:Hpre.
  - rewrite (sas_sd_snic_alias_preloaded w enclosures) by (rewrite Hpre; reflexivity).
    apply alias_from_outcome.
  - pose proof (preload_enclosures_silent w) as Hsilent.
    rewrite Hpre in Hsilent. simpl in Hsilent. subst out'.
    unfold sas_sd_snic_alias. rewrite Hpre. intros [= <- <-]. right. eauto.
Qed.

Lemma stdout_app (out out' : list output) : stdout (out ++ out') = stdout out ++ stdout out'.
Proof. apply filter_app. Qed.

(** X2: for every tree and every block device name, either
    [sas_sd_snic_alias] returns an alias, which is never empty (the test of
    line 90 never drops it): [main] then makes one [print] on standard
    output, of that alias, and the process exits with status 0; or it
    raises: [main] then makes no [print] on standard output, the last thing
    written is the "Not found" line or the traceback of the exception, and
    the process exits with status 1. *)
Theorem main_prints_the_alias_or_fails (w : World) (argv0 blkdev : string) :
  (exists alias,
      (sas_sd_snic_alias w blkdev).1 = Ok alias
      /\ alias <> ""
      /\ stdout (written (main w [argv0; blkdev])) = [Print alias]
      /\ exit_status (main w [argv0; blkdev]) = 0)
  \/ (exists e,
         (sas_sd_snic_alias w blkdev).1 = Raise e
         /\ stdout (written (main w [argv0; blkdev])) = []
         /\ last (written (main w [argv0; blkdev]))
            = Some (if is_KeyError e then NotFound e else Traceback e)
         /\ exit_status (main w [argv0; blkdev]) = 1).
Proof.
  destruct (sas_sd_snic_alias w blkdev) as [r out] eqn:Hrun.
  destruct (sas_sd_snic_alias_outcome _ _ _ _ Hrun)
    as [(alias & -> & -> & Hne) | (e & -> & Hout)].
  - left. exists alias. split; [reflexivity|]. split; [exact Hne|].
    unfold main. rewrite Hrun. destruct alias; [congruence|]. split; reflexivity.
  - right. exists e. split; [reflexivity|].
    rewrite (main_raise _ _ _ _ _ Hrun). cbn [written exit_status].
    rewrite stdout_app, Hout, last_snoc. repeat split. destruct e; reflexivity.
Qed.

(** X3: called with another number of arguments than one, [main] only
    writes the usage line on standard error and exits with status 1; the
    tree is not read. *)
Theorem main_usage (w : World) (argv0 : string) (args : list string) :
  length args <> 1%nat ->
  main w (argv0 :: args)
  = {| written := [PrintErr ("Usage: " +:+ argv0 +:+ " <blkdev>")]; exit_status := 1 |}.
Proof.
  intros Hlen. destruct args as [|blkdev [|arg args]]; [reflexivity | | reflexivity].
  contradiction Hlen. reflexivity.
Qed.

Lemma main_usage_two_arguments :
  length ["sdb"; "sdc"] <> 1%nat
  /\ main Sample.broken ["sas_sd_snic_alias"; "sdb"; "sdc"]
     = {| written := [PrintErr "Usage: sas_sd_snic_alias <blkdev>"]; exit_status := 1 |}.
Proof.
  split; [discriminate|].
  apply (main_usage Sample.broken "sas_sd_snic_alias" ["sdb"; "sdc"]). discriminate.
Defined.

(** ** Failures on the way to the alias *)

(** X4: without array device, an exception raised inside the [try] block
    by the read of the enclosure identifier, or by the read of the sg name
    of the enclosure found in the dict, leaves the lookup unchanged; a
    [KeyError] among them is first logged as "not an array device", any
    other exception is not logged. *)
Theorem try_block_reports_every_KeyError (enclosures : gmap (option string) EnclosureDevice)
    (b : SASBlockDevice) (sasdev : SASDevice) (e : exn) :
  array_device b = Ok None ->
  (enclosure_identifier sasdev = Raise e
   \/ exists key encl,
        enclosure_identifier sasdev = Ok key
        /\ enclosures !! key = Some encl
        /\ scsi_generic_sg_name encl = Raise e) ->
  lookup_ses_sg enclosures b sasdev
  = (Raise e, if is_KeyError e then [not_an_array_device b] else []).
Proof.
  intros Harray Hraise. unfold lookup_ses_sg, dict_getitem. rewrite Harray.
  destruct Hraise as [Hid | (key & encl & Hid & Hencl & Hsg)]; rewrite Hid; cbn.
  - destruct e; reflexivity.
  - rewrite Hencl. cbn. rewrite Hsg. destruct e; reflexivity.
Qed.

Lemma try_block_reports_every_KeyError_sg :
  array_device (Sample.disk "sdb" None "0x5000ccab0405db00" "3") = Ok None
  /\ lookup_ses_sg
       (<[ Some "0x5000ccab0405db00" :=
             {| sas_address := Ok (Some "0x5000ccab0405db00");
                scsi_generic_sg_name := Raise (KeyError (Some "scsi_generic")) |} ]> ∅)
       (Sample.disk "sdb" None "0x5000ccab0405db00" "3")
       {| enclosure_identifier := Ok (Some "0x5000ccab0405db00");
          bay_identifier := Ok (Some "3") |}
     = (Raise (KeyError (Some "scsi_generic")),
        [LogWarning "sdb not an array device (/sys/block/sdb/device)"]).
Proof.
  split; [reflexivity|].
  refine (try_block_reports_every_KeyError _ (Sample.disk "sdb" None "0x5000ccab0405db00" "3")
            _ (KeyError (Some "scsi_generic")) eq_refl _).
  right. eexists _, _. repeat split; reflexivity.
Defined.

(** X5: when the block device has no node in the tree, or no SAS end
    device, the exception of that read leaves the command as it is and
    nothing is logged; [main] reports a [KeyError] as "Not found", any
    other exception by its traceback, prints no alias and exits with
    status 1. *)
Theorem unknown_block_device_fails (w : World) (argv0 blkdev : string)
    (enclosures : gmap (option string) EnclosureDevice) (e : exn) :
  (preload_enclosures w).1 = Ok enclosures ->
  (block w (whole_disk_name blkdev) = Raise e
   \/ exists b, block w (whole_disk_name blkdev) = Ok b
                /\ end_device_sas_device b = Raise e) ->
  sas_sd_snic_alias w blkdev = (Raise e, [])
  /\ main w [argv0; blkdev]
     = {| written := [if is_KeyError e then NotFound e else Traceback e];
          exit_status := 1 |}.
Proof.
  intros Hpre Hraise.
  assert (Hrun : sas_sd_snic_alias w blkdev = (Raise e, [])).
  { rewrite (sas_sd_snic_alias_preloaded _ _ _ Hpre). unfold alias_from.
    fold (whole_disk_name blkdev).
    destruct Hraise as [Hblock | (b & Hblock & Hsasdev)].
    - exact (bind_read_raise _ _ _ Hblock).
    - rewrite (bind_read_ok _ _ _ Hblock). exact (bind_read_raise _ _ _ Hsasdev). }
  split; [exact Hrun|]. exact (main_raise _ _ _ _ _ Hrun).
Qed.

Lemma unknown_block_device_fails_sdq :
  (exists enclosures, (preload_enclosures Sample.healthy).1 = Ok enclosures)
  /\ block Sample.healthy (whole_disk_name "sdq2") = Raise (KeyError (Some "/sys/block/sdq"))
  /\ main Sample.healthy ["sas_sd_snic_alias"; "sdq2"]
     = {| written := [NotFound (KeyError (Some "/sys/block/sdq"))]; exit_status := 1 |}.
Proof.
  split; [eexists; reflexivity|]. split; [reflexivity|].
  exact (proj2 (unknown_block_device_fails Sample.healthy "sas_sd_snic_alias" "sdq2" _
                  (KeyError (Some "/sys/block/sdq")) eq_refl (or_introl eq_refl))).
Defined.

(** X6: with the array device present the command succeeds as soon as the
    sg name of its enclosure, the bay identifier and the nickname can be
    read: the alias is made of the nickname queried on that sg name and of
    the bay, whatever the enclosure identifier of the SAS device and the
    preloaded dict are; [main] prints it and exits with status 0. *)
Theorem array_device_resolves (w : World) (argv0 blkdev : string)
    (enclosures : gmap (option string) EnclosureDevice)
    (b : SASBlockDevice) (sasdev : SASDevice) (array : ArrayDevice)
    (sg : string) (bay : Z) (nickname : option string) :
  (preload_enclosures w).1 = Ok enclosures ->
  block w (whole_disk_name blkdev) = Ok b ->
  end_device_sas_device b = Ok sasdev ->
  array_device b = Ok (Some array) ->
  enclosure_scsi_generic_sg_name array = Ok sg ->
  and_then (bay_identifier sasdev) Py.int = Ok bay ->
  ses_get_snic_nickname w sg = Ok nickname ->
  sas_sd_snic_alias w blkdev = (Ok (format_alias nickname bay (name b)), [])
  /\ main w [argv0; blkdev]
     = {| written := [Print (format_alias nickname bay (name b))]; exit_status := 0 |}.
Proof.
  intros Hpre Hblock Hsasdev Harray Hsg Hbay Hnick.
  assert (Hlookup : lookup_ses_sg enclosures b sasdev = (Ok sg, [])).
  { rewrite (lookup_ses_sg_array _ _ _ _ Harray), Hsg. reflexivity. }
  assert (Hrun : sas_sd_snic_alias w blkdev = (Ok (format_alias nickname bay (name b)), [])).
  { rewrite (sas_sd_snic_alias_preloaded _ _ _ Hpre).
    exact (alias_from_resolved _ _ _ _ _ _ _ _ Hblock Hsasdev Hlookup Hbay Hnick). }
  split; [exact Hrun|]. unfold main. rewrite Hrun.
  destruct (format_alias nickname bay (name b)) eqn:Halias; [|reflexivity].
  exfalso. exact (format_alias_nonempty _ _ _ Halias).
Qed.

Lemma array_device_resolves_sdc :
  (exists enclosures, (preload_enclosures Sample.healthy).1 = Ok enclosures)
  /\ block Sample.healthy (whole_disk_name "sdc")
     = Ok (Sample.disk "sdc" (Some "sg3") "0x5000ccab0405db00" "12")
  /\ ses_get_snic_nickname Sample.healthy "sg3" = Ok (Some "rack7-encl2")
  /\ main Sample.healthy ["sas_sd_snic_alias"; "sdc"]
     = {| written := [Print "rack7-encl2-bay12"]; exit_status := 0 |}.
Proof.
  split; [eexists; reflexivity|]. split; [reflexivity|]. split; [reflexivity|].
  exact (proj2 (array_device_resolves Sample.healthy "sas_sd_snic_alias" "sdc" _ _ _ _
                  "sg3" 12 (Some "rack7-encl2")
                  eq_refl eq_refl eq_refl eq_refl eq_refl eq_refl eq_refl)).
Defined.

(** ** What the preloaded dict holds *)

(** One readable node at the head of the enumeration. *)
Lemma preload_loop_cons_inv (encl : result EnclosureDevice)
    (nodes : list (result EnclosureDevice))
    (enclosures index : gmap (option string) EnclosureDevice) (out : list output) :
  preload_loop (encl :: nodes) enclosures = (Ok index, out) ->
  exists encldev key,
    encl = Ok encldev /\ sas_address encldev = Ok key
    /\ preload_loop nodes (<[key := encldev]> enclosures) = (Ok index, out).
Proof.
  intros Hrun. destruct (node_key encl) as [key|e] eqn:Hkey.
  - apply node_key_ok in Hkey as (encldev & Hencl & Hkey).
    rewrite (preload_loop_cons_ok _ _ _ _ _ Hencl Hkey) in Hrun. eauto.
  - rewrite (preload_loop_cons_raise _ _ _ _ Hkey) in Hrun. discriminate.
Qed.

Lemma preload_loop_entries (nodes : list (result EnclosureDevice))
    (enclosures index : gmap (option string) EnclosureDevice) (out : list output)
    (key : attr) (encl : EnclosureDevice) :
  preload_loop nodes enclosures = (Ok index, out) ->
  index !! key = Some encl ->
  enclosures !! key = Some encl \/ (sas_address encl = Ok key /\ Ok encl ∈ nodes).
Proof.
  revert enclosures. induction nodes as [|node nodes IH]; intros enclosures Hrun Hentry.
  - injection Hrun as <- _. left. exact Hentry.
  - apply preload_loop_cons_inv in Hrun as (encldev & key' & -> & Hkey' & Hrun).
    destruct (IH _ Hrun Hentry) as [Hin | [Haddr Hin]].
    + rewrite lookup_insert in Hin. case_decide as Heq.
      * injection Hin as <-. subst key'. right. split; [exact Hkey'|]. apply list_elem_of_here.
      * left. exact Hin.
    + right. split; [exact Haddr|]. apply list_elem_of_further, Hin.
Qed.

Lemma preload_loop_keys (nodes : list (result EnclosureDevice))
    (enclosures index : gmap (option string) EnclosureDevice) (out : list output)
    (key : attr) :
  preload_loop nodes enclosures = (Ok index, out) ->
  is_Some (enclosures !! key)
  \/ (exists encl, Ok encl ∈ nodes /\ sas_address encl = Ok key) ->
  is_Some (index !! key).
Proof.
  revert enclosures. induction nodes as [|node nodes IH]; intros enclosures Hrun Hkey.
  - injection Hrun as <- _. destruct Hkey as [Hkey | (encl & Hin & _)]; [exact Hkey|].
    apply elem_of_nil in Hin. contradiction.
  - apply preload_loop_cons_inv in Hrun as (encldev & key' & -> & Hkey' & Hrun).
    apply (IH _ Hrun). destruct Hkey as [Hkey | (encl & Hin & Haddr)].
    + left. rewrite lookup_insert. case_decide; [eauto | exact Hkey].
    + apply elem_of_cons in Hin as [[= ->] | Hin].
      * left. assert (key' = key) as -> by congruence.
        rewrite lookup_insert_eq. eauto.
      * right. eauto.
Qed.

Lemma preload_loop_size (nodes : list (result EnclosureDevice))
    (enclosures index : gmap (option string) EnclosureDevice) (out : list output) :
  preload_loop nodes enclosures = (Ok index, out) ->
  (size index <= size enclosures + length nodes)%nat.
Proof.
  revert enclosures. induction nodes as [|node nodes IH]; intros enclosures Hrun.
  - injection Hrun as <- _. simpl. lia.
  - apply preload_loop_cons_inv in Hrun as (encldev & key' & -> & Hkey' & Hrun).
    specialize (IH _ Hrun). rewrite map_size_insert in IH.
    cbn [length]. destruct (enclosures !! key'); simpl in IH; lia.
Qed.

Lemma preload_loop_readable (nodes : list (result EnclosureDevice))
    (enclosures : gmap (option string) EnclosureDevice) :
  (exists index, preload_loop nodes enclosures = (Ok index, []))
  <-> Forall (fun encl => exists key, node_key encl = Ok key) nodes.
Proof.
  revert enclosures. induction nodes as [|node nodes IH]; intros enclosures.
  - split; [constructor | eexists; reflexivity].
  - split.
    + intros [index Hrun].
      apply preload_loop_cons_inv in Hrun as (encldev & key & -> & Hkey & Hrun).
      constructor; [exists key; exact Hkey|]. apply (IH (<[key := encldev]> enclosures)). eauto.
    + intros Hall. inversion Hall as [|? ? [key Hkey] Hrest]; subst.
      apply node_key_ok in Hkey as (encldev & -> & Hkey).
      rewrite (preload_loop_cons_ok _ _ _ _ _ eq_refl Hkey). apply IH, Hrest.
Qed.

(** X7: every entry of the preloaded dict is an enclosure of the
    enumeration filed under its own SAS address, the keys are exactly the
    addresses the enclosure nodes report, and the dict has at most as many
    entries as there are nodes. *)
Theorem enclosures_hold_the_nodes (w : World) (nodes : list (result EnclosureDevice))
    (enclosures : gmap (option string) EnclosureDevice) :
  class_enclosure w = Ok nodes ->
  (preload_enclosures w).1 = Ok enclosures ->
  (forall key encl,
      enclosures !! key = Some encl -> sas_address encl = Ok key /\ Ok encl ∈ nodes)
  /\ (forall key,
         is_Some (enclosures !! key)
         <-> exists encl, Ok encl ∈ nodes /\ sas_address encl = Ok key)
  /\ (size enclosures <= length nodes)%nat.
Proof.
  intros Hnodes Hrun. rewrite (preload_enclosures_nodes _ _ Hnodes) in Hrun.
  destruct (preload_loop nodes ∅) as [r out] eqn:Hloop. simpl in Hrun. subst r.
  assert (Hentries : forall key encl,
             enclosures !! key = Some encl -> sas_address encl = Ok key /\ Ok encl ∈ nodes).
  { intros key encl Hentry.
    destruct (preload_loop_entries _ _ _ _ _ _ Hloop Hentry) as [Hempty | H]; [|exact H].
    rewrite lookup_empty in Hempty. discriminate. }
  split; [exact Hentries|]. split.
  - intros key. split.
    + intros [encl Hentry]. destruct (Hentries _ _ Hentry). eauto.
    + intros Hin. apply (preload_loop_keys _ _ _ _ _ Hloop). right. exact Hin.
  - pose proof (preload_loop_size _ _ _ _ Hloop) as Hsize.
    rewrite map_size_empty in Hsize. exact Hsize.
Qed.

Lemma enclosures_hold_the_nodes_duplicated :
  exists enclosures,
    class_enclosure Sample.duplicated = Ok [Ok Sample.jbod1; Ok Sample.jbod2; Ok Sample.jbod1']
    /\ (preload_enclosures Sample.duplicated).1 = Ok enclosures
    /\ (forall key encl,
           enclosures !! key = Some encl ->
           sas_address encl = Ok key
           /\ Ok encl ∈ [Ok Sample.jbod1; Ok Sample.jbod2; Ok Sample.jbod1'])
    /\ (size enclosures <= 3)%nat.
Proof.
  eexists. split; [reflexivity|]. split; [reflexivity|].
  destruct (enclosures_hold_the_nodes Sample.duplicated _ _ eq_refl eq_refl)
    as (Hentries & _ & Hsize).
  split; [exact Hentries | exact Hsize].
Defined.

(** X8: the preload succeeds exactly when every enclosure node of the
    enumeration can be read (its device and its SAS address); it then
    writes nothing. *)
Theorem preload_succeeds_iff_readable (w : World) (nodes : list (result EnclosureDevice)) :
  class_enclosure w = Ok nodes ->
  (exists enclosures, preload_enclosures w = (Ok enclosures, []))
  <-> Forall (fun encl => exists key, node_key encl = Ok key) nodes.
Proof.
  intros Hnodes. rewrite (preload_enclosures_nodes _ _ Hnodes).
  apply preload_loop_readable.
Qed.

Lemma preload_succeeds_iff_readable_healthy :
  class_enclosure Sample.healthy = Ok [Ok Sample.jbod1; Ok Sample.jbod2]
  /\ ((exists enclosures, preload_enclosures Sample.healthy = (Ok enclosures, []))
      <-> Forall (fun encl => exists key, node_key encl = Ok key)
            [Ok Sample.jbod1; Ok Sample.jbod2]).
Proof.
  split; [reflexivity|].
  exact (preload_succeeds_iff_readable Sample.healthy _ eq_refl).
Defined.

(** ** The bay in the alias *)

Lemma concat_zeros_S (k : nat) :
  String.concat "" (repeat "0" (S k)) = String "0" (String.concat "" (repeat "0" k)).
Proof. destruct k; reflexivity. Qed.

(** Leading zeros do not change the value. *)
Lemma digits_value_zfill (width : nat) (n : N) (after_digit : bool) :
  Py.digits_value 0 after_digit (Py.zfill width (Py.str_nat n)) = Some (Z.of_N n).
Proof.
  unfold Py.zfill. generalize (width - String.length (Py.str_nat n))%nat as k.
  intros k. revert after_digit. induction k as [|k IH]; intros after_digit.
  - cbn [repeat String.concat]. rewrite append_nil_l. apply digits_value_str_nat.
  - rewrite concat_zeros_S, append_cons. cbn [Py.digits_value].
    change (Py.is_digit "0") with true. cbv iota. apply IH.
Qed.

Lemma all_in_zfill (width : nat) (n : N) :
  all_in "0123456789" (Py.zfill width (Py.str_nat n)) = true.
Proof.
  unfold Py.zfill. rewrite all_in_app, str_nat_unfold, all_in_uint, andb_true_r.
  induction (width - _)%nat as [|k IH]; [reflexivity|].
  rewrite concat_zeros_S. cbn [all_in]. rewrite IH. reflexivity.
Qed.

Lemma append_inv_head (s t1 t2 : string) : s +:+ t1 = s +:+ t2 -> t1 = t2.
Proof.
  induction s as [|c s IH]; [intros H; exact H|].
  rewrite !append_cons. intros [= H]. exact (IH H).
Qed.

(** The [02d] format tells its integer. *)
Lemma format_02d_inj (z z' : Z) : Py.format_02d z = Py.format_02d z' -> z = z'.
Proof.
  assert (Hmixed : forall n n', "-" +:+ Py.zfill 1 (Py.str_nat n) <> Py.zfill 2 (Py.str_nat n')).
  { intros n n' Heq. pose proof (all_in_zfill 2 n') as Hall.
    rewrite <- Heq in Hall. discriminate. }
  unfold Py.format_02d.
  destruct (Z.ltb_spec z 0) as [Hz|Hz], (Z.ltb_spec z' 0) as [Hz'|Hz']; intros Heq.
  - apply (append_inv_head "-") in Heq. apply (f_equal (Py.digits_value 0 false)) in Heq.
    rewrite !digits_value_zfill in Heq. injection Heq as Heq. lia.
  - destruct (Hmixed _ _ Heq).
  - symmetry in Heq. destruct (Hmixed _ _ Heq).
  - apply (f_equal (Py.digits_value 0 false)) in Heq.
    rewrite !digits_value_zfill in Heq. injection Heq as Heq. lia.
Qed.

Lemma length_append (s t : string) :
  String.length (s +:+ t) = (String.length s + String.length t)%nat.
Proof.
  induction s as [|c s IH]; [reflexivity|].
  rewrite append_cons. cbn [String.length]. rewrite IH. reflexivity.
Qed.

Lemma append_inv_tail (s1 s2 t : string) : s1 +:+ t = s2 +:+ t -> s1 = s2.
Proof.
  revert s2. induction s1 as [|c1 s1 IH]; intros [|c2 s2] Heq.
  - reflexivity.
  - apply (f_equal String.length) in Heq.
    rewrite append_nil_l, append_cons in Heq. cbn [String.length] in Heq.
    rewrite length_append in Heq. lia.
  - apply (f_equal String.length) in Heq.
    rewrite append_nil_l, append_cons in Heq. cbn [String.length] in Heq.
    rewrite length_append in Heq. lia.
  - rewrite !append_cons in Heq. injection Heq as -> Heq. f_equal. exact (IH _ Heq).
Qed.

Lemma all_in_format_02d (z : Z) : all_in "0123456789-" (Py.format_02d z) = true.
Proof.
  assert (Hsub : forall c, Py.contains "0123456789" c = true ->
                           Py.contains "0123456789-" c = true).
  { intros c Hc. change "0123456789-" with ("0123456789" +:+ "-").
    rewrite contains_app, Hc. reflexivity. }
  unfold Py.format_02d. destruct (z <? 0).
  - change ("-" +:+ ?s) with (String "-" s). cbn [all_in].
    rewrite (all_in_weaken _ _ _ Hsub (all_in_zfill _ _)). reflexivity.
  - exact (all_in_weaken _ _ _ Hsub (all_in_zfill _ _)).
Qed.

(** The alias without its bay. *)
Lemma rstrip_alias (nickname : string) (bay : Z) :
  Py.rstrip "0123456789-" (ALIAS_FORMAT nickname bay) = nickname +:+ "-bay".
Proof.
  unfold ALIAS_FORMAT. rewrite <- append_assoc, rstrip_app by apply all_in_format_02d.
  change "-bay" with ("-ba" +:+ "y"). rewrite <- append_assoc, rstrip_snoc. reflexivity.
Qed.

(** X10: the alias tells the nickname and the bay it was made of: two
    aliases are equal only when both are, so two bays of one enclosure, or
    one bay of two enclosures with different nicknames, never share an
    alias. *)
Theorem alias_determines_nickname_and_bay (nickname nickname' : string) (bay bay' : Z) :
  ALIAS_FORMAT nickname bay = ALIAS_FORMAT nickname' bay'
  <-> nickname = nickname' /\ bay = bay'.
Proof.
  split; [|intros [-> ->]; reflexivity].
  intros Heq.
  assert (Hnick : nickname = nickname').
  { apply (append_inv_tail _ _ "-bay").
    rewrite <- (rstrip_alias nickname bay), <- (rstrip_alias nickname' bay'), Heq.
    reflexivity. }
  subst nickname'. split; [reflexivity|].
  unfold ALIAS_FORMAT in Heq. do 2 apply append_inv_head in Heq.
  exact (format_02d_inj _ _ Heq).
Qed.

(** ** Failures after the lookup *)

(** X11: once the SES sg name is found, a bay identifier that is not an
    integer literal makes [int] raise [ValueError], and one without value
    [TypeError]; [main] does not catch them: the process ends on the
    traceback, not on a "Not found" line, with status 1, and the nickname
    is not part of the outcome. *)
Theorem bad_bay_is_not_caught (w : World) (argv0 blkdev : string)
    (enclosures : gmap (option string) EnclosureDevice)
    (b : SASBlockDevice) (sasdev : SASDevice) (sg : string) (value : attr) (e : exn) :
  (preload_enclosures w).1 = Ok enclosures ->
  block w (whole_disk_name blkdev) = Ok b ->
  end_device_sas_device b = Ok sasdev ->
  lookup_ses_sg enclosures b sasdev = (Ok sg, []) ->
  bay_identifier sasdev = Ok value ->
  Py.int value = Raise e ->
  is_KeyError e = false
  /\ sas_sd_snic_alias w blkdev = (Raise e, [])
  /\ main w [argv0; blkdev] = {| written := [Traceback e]; exit_status := 1 |}.
Proof.
  intros Hpre Hblock Hsasdev Hlookup Hvalue Hint.
  assert (Hclass : is_KeyError e = false).
  { unfold Py.int in Hint. destruct value as [s|].
    - destruct (Py.int_literal s); [discriminate | injection Hint as <-; reflexivity..].
    - injection Hint as <-. reflexivity. }
  assert (Hrun : sas_sd_snic_alias w blkdev = (Raise e, [])).
  { rewrite (sas_sd_snic_alias_preloaded _ _ _ Hpre).
    rewrite (alias_from_device _ _ _ _ _ Hblock Hsasdev).
    rewrite (bind_ok_silent _ _ _ Hlookup). apply bind_read_raise.
    rewrite Hvalue. exact Hint. }
  split; [exact Hclass|]. split; [exact Hrun|].
  rewrite (main_raise _ _ _ _ _ Hrun), Hclass. reflexivity.
Qed.

Lemma bad_bay_is_not_caught_sde :
  (exists enclosures, (preload_enclosures Sample.healthy).1 = Ok enclosures)
  /\ block Sample.healthy (whole_disk_name "sde")
     = Ok (Sample.disk "sde" None "0x5000ccab0405db00" "n/a")
  /\ Py.int (Some "n/a") = Raise (ValueError "invalid literal for int() with base 10: 'n/a'")
  /\ main Sample.healthy ["sas_sd_snic_alias"; "sde"]
     = {| written := [Traceback (ValueError "invalid literal for int() with base 10: 'n/a'")];
          exit_status := 1 |}.
Proof.
  split; [eexists; reflexivity|]. split; [reflexivity|]. split; [reflexivity|].
  exact (proj2 (proj2 (bad_bay_is_not_caught Sample.healthy "sas_sd_snic_alias" "sde" _ _ _
                         "sg3" (Some "n/a") _
                         eq_refl eq_refl eq_refl eq_refl eq_refl eq_refl))).
Defined.

(** X12: the fallback nickname stands in for a nickname that is [None] or
    empty, not for a query that fails: an exception of
    [ses_get_snic_nickname] leaves the command as it is, nothing is logged
    and no alias is printed. *)
Theorem nickname_failure_is_not_caught (w : World) (argv0 blkdev : string)
    (enclosures : gmap (option string) EnclosureDevice)
    (b : SASBlockDevice) (sasdev : SASDevice) (sg : string) (bay : Z) (e : exn) :
  (preload_enclosures w).1 = Ok enclosures ->
  block w (whole_disk_name blkdev) = Ok b ->
  end_device_sas_device b = Ok sasdev ->
  lookup_ses_sg enclosures b sasdev = (Ok sg, []) ->
  and_then (bay_identifier sasdev) Py.int = Ok bay ->
  ses_get_snic_nickname w sg = Raise e ->
  sas_sd_snic_alias w blkdev = (Raise e, [])
  /\ main w [argv0; blkdev]
     = {| written := [if is_KeyError e then NotFound e else Traceback e];
          exit_status := 1 |}.
Proof.
  intros Hpre Hblock Hsasdev Hlookup Hbay Hnick.
  assert (Hrun : sas_sd_snic_alias w blkdev = (Raise e, [])).
  { rewrite (sas_sd_snic_alias_preloaded _ _ _ Hpre).
    rewrite (alias_from_device _ _ _ _ _ Hblock Hsasdev).
    rewrite (bind_ok_silent _ _ _ Hlookup), (bind_read_ok _ _ _ Hbay).
    exact (bind_read_raise _ _ _ Hnick). }
  split; [exact Hrun|]. exact (main_raise _ _ _ _ _ Hrun).
Qed.

Lemma nickname_failure_is_not_caught_sdb :
  sas_sd_snic_alias
    {| class_enclosure := class_enclosure Sample.healthy;
       block := block Sample.healthy;
       ses_get_snic_nickname := fun _ => Raise (OtherError "OSError" "sg_ses: not found") |}
    "sdb"
  = (Raise (OtherError "OSError" "sg_ses: not found"), []).
Proof.
  exact (proj1 (nickname_failure_is_not_caught
                  {| class_enclosure := class_enclosure Sample.healthy;
                     block := block Sample.healthy;
                     ses_get_snic_nickname :=
                       fun _ => Raise (OtherError "OSError" "sg_ses: not found") |}
                  "sas_sd_snic_alias" "sdb" _ _ _ "sg3" 3 _
                  eq_refl eq_refl eq_refl eq_refl eq_refl eq_refl)).
Defined.
